(** * PyNeon: timestamped streams, cropping and resampling

    A shallow embedding of [pyneon/stream.py] (class [NeonStream] and its
    subclasses) together with the two functions it imports from
    [pyneon/preprocess.py], [crop] and [interpolate], and of the two
    plotting functions of [pyneon/vis/vis_video.py].

    Conventions of the embedding.
    - A pandas [DataFrame] is an index of integer timestamps plus an ordered
      list of named, typed columns.
    - Timestamps are numpy [int64] values, held in [Z]; where the code
      subtracts two of them inside numpy the wrap-around is written out
      ([sub64]).
    - Python and numpy floats are held as exact rationals ([Qc], canonical
      fractions, so that equal values are equal terms).  Rounding of binary64
      is not part of the model; every test the code makes on a float
      ([duration] being zero, [int(..)] of a quotient of integers) has the
      same outcome on the exact value, as noted at each use.
    - A Python exception is a value of [exn]; a method of a stream is a
      function from the object to the object afterwards and either a value
      or the exception raised.  The object is kept when a call raises,
      because attributes assigned before the [raise] stay assigned. *)

From Stdlib Require Import String ZArith QArith Qcanon Qround List Sorted Bool Lia Lqa
  DecimalString.
Import ListNotations.
Open Scope Z_scope.

(** ** Python values, exceptions and results *)

(** A Python [float], as an exact rational. *)
#[warning="-notation-for-abbreviation"]
Notation float := Qc (only parsing).

Definition Z2f (z : Z) : float := Q2Qc (inject_Z z).

(** The literal [1e9]. *)
Definition f1e9 : float := Z2f 1000000000.

(** The exceptions Python and numpy raise in [stream.py], followed by the
    five error kinds of the spec's section 7.  Four of those are raised by
    the functions of [preprocess.py]; nothing in [stream.py] raises
    MissingNominalRate. *)
Inductive exn : Type :=
| TypeError          (* [1e9 / None] *)
| ZeroDivisionError  (* division by a zero float, [np.arange] with step 0 *)
| IndexError         (* [a[0]] or [a[-1]] on an empty array *)
| AssertionError     (* a failed [assert] *)
| InvalidRange       (* preprocess.crop: resolved tmin > tmax *)
| EmptyResult        (* preprocess.crop: no row in range *)
| InsufficientData   (* preprocess.interpolate: fewer than 2 rows *)
| OutOfRange         (* preprocess.interpolate: target outside the table *)
| MissingNominalRate.

Inductive result (A : Type) : Type :=
| Ok (a : A)
| Raise (e : exn).
Arguments Ok {A} a.
Arguments Raise {A} e.

(** [a[i]] for a Python sequence: a negative index counts from the end. *)
Definition getitem {A} (a : list A) (i : Z) : result A :=
  let n := Z.of_nat (length a) in
  let j := if i <? 0 then n + i else i in
  if (0 <=? j) && (j <? n)
  then match nth_error a (Z.to_nat j) with
       | Some x => Ok x
       | None => Raise IndexError
       end
  else Raise IndexError.

(** [a / b] on Python floats. *)
Definition truediv (a b : float) : result float :=
  if Qc_eq_bool b 0%Qc then Raise ZeroDivisionError else Ok (a / b)%Qc.

(** [int(x)]: truncation towards zero. *)
Definition int (x : float) : Z := Z.quot (Qnum x) (Zpos (Qden x)).

(** [round(x)]: to the nearest integer, a tie going to the even one. *)
Definition round (x : float) : Z :=
  let f := Qfloor x in
  match Qcompare (x - inject_Z f) (1 # 2) with
  | Lt => f
  | Gt => f + 1
  | Eq => if Z.even f then f else f + 1
  end.

(** [a <= b] and [a < b] on numbers. *)
Definition fle (a b : float) : bool := Qle_bool a b.
Definition flt (a b : float) : bool := negb (Qle_bool b a).

(** ** numpy *)

Definition wrap64 (z : Z) : Z := (z + 2 ^ 63) mod 2 ^ 64 - 2 ^ 63.

(** Subtraction of two [int64] values. *)
Definition sub64 (a b : Z) : Z := wrap64 (a - b).

(** [np.arange(start, stop, step, dtype=np.int64)]: the values
    [start + i * step] for [0 <= i < ceil((stop - start) / step)].  They lie
    between [start] and [stop], so they are [int64] whenever both ends are. *)
Definition arange (start stop step : Z) : result (list Z) :=
  if step =? 0 then Raise ZeroDivisionError
  else
    let n := Z.max 0 (- ((- (stop - start)) / step)) in
    Ok (map (fun i => start + Z.of_nat i * step) (seq 0 (Z.to_nat n))).

(** [np.diff(a)] on an [int64] array. *)
Fixpoint diff (a : list Z) : list Z :=
  match a with
  | x :: ((y :: _) as rest) => sub64 y x :: diff rest
  | _ => []
  end.

(** ** pandas *)

(** A cell of a column that is not of float dtype. *)
Inductive value : Type :=
| VInt (z : Z)
| VBool (b : bool)
| VStr (s : string)
| VNull.

Inductive column : Type :=
| FloatCol (xs : list float)
| OtherCol (xs : list value).

Record DataFrame : Type := mkDataFrame {
  index : list Z;                       (* [timestamp [ns]] *)
  columns : list (string * column)
}.



(** [df.shape[0]] *)
Definition shape0 (df : DataFrame) : Z := Z.of_nat (length (index df)).

(** [df[name]] *)
Fixpoint getcol (name : string) (cols : list (string * column)) : option column :=
  match cols with
  | [] => None
  | (n, c) :: rest => if String.eqb n name then Some c else getcol name rest
  end.

Fixpoint setcol (name : string) (c : column) (cols : list (string * column))
  : list (string * column) :=
  match cols with
  | [] => [(name, c)]
  | (n, c0) :: rest =>
      if String.eqb n name then (n, c) :: rest else (n, c0) :: setcol name c rest
  end.

(** [df[name] = c]: replaces the column in place, or appends a new one. *)
Definition setitem (name : string) (c : column) (df : DataFrame) : DataFrame :=
  mkDataFrame (index df) (setcol name c (columns df)).

(** Boolean-mask selection [a[mask]]. *)
Fixpoint select {A} (mask : list bool) (a : list A) : list A :=
  match mask, a with
  | b :: mask', x :: a' => if b then x :: select mask' a' else select mask' a'
  | _, _ => []
  end.

Definition select_col (mask : list bool) (c : column) : column :=
  match c with
  | FloatCol xs => FloatCol (select mask xs)
  | OtherCol xs => OtherCol (select mask xs)
  end.

(** [df[mask]] *)
Definition select_rows (mask : list bool) (df : DataFrame) : DataFrame :=
  mkDataFrame (select mask (index df))
              (map (fun nc => (fst nc, select_col mask (snd nc))) (columns df)).

(** ** pyneon/preprocess.py *)

Module preprocess.

(** The [by] argument of [crop]: ["timestamp"] or ["time"]. *)
Inductive unit_of_bound : Type :=
| by_timestamp
| by_time.

(** Modelled from the spec: [preprocess.crop] is imported by [stream.py] but
    its body is absent.  Section 4.1, Resolution: a bound given in
    relative time is converted through [first_ts + round(t * 1e9)]; a bound
    given as a timestamp is taken as it is. *)
Definition resolve (first_ts : Z) (by_ : unit_of_bound) (t : float) : float :=
  match by_ with
  | by_timestamp => t
  | by_time => Z2f (first_ts + round (t * f1e9)%Qc)
  end.

(** Modelled from the spec: section 4.1, Resolution, the missing part of
    [preprocess.crop]: an unset [tmin] is the table's minimum key, an unset
    [tmax] its maximum key.  A table without rows has neither. *)
Definition resolve_bounds (table : DataFrame) (tmin tmax : option float)
    (by_ : unit_of_bound) : option (float * float) :=
  match index table with
  | [] => None
  | first :: rest =>
      Some (match tmin with
            | Some t => resolve first by_ t
            | None => Z2f (fold_left Z.min rest first)
            end,
            match tmax with
            | Some t => resolve first by_ t
            | None => Z2f (fold_left Z.max rest first)
            end)
  end.

Definition in_range (lo hi : float) (k : Z) : bool :=
  fle lo (Z2f k) && fle (Z2f k) hi.

(** Modelled from the spec: the body of [preprocess.crop] is absent.
    Section 4.1: the rows whose key lies in the closed interval, in their
    order; InvalidRange when the resolved [tmin] exceeds [tmax]; EmptyResult
    when no row is left (a table without rows has no row in any range). *)
Definition crop (table : DataFrame) (tmin tmax : option float)
    (by_ : unit_of_bound) : result DataFrame :=
  match resolve_bounds table tmin tmax by_ with
  | None => Raise EmptyResult
  | Some (lo, hi) =>
      if flt hi lo then Raise InvalidRange
      else
        let out := select_rows (map (in_range lo hi) (index table)) table in
        match index out with
        | [] => Raise EmptyResult
        | _ :: _ => Ok out
        end
  end.

(** Modelled from the spec: the interpolation policies of the absent
    [preprocess.interpolate].  Section 4.2 defines two: linear, for
    floating-point columns, and nearest-neighbour.  A float column may use
    either; the other columns have no arithmetic, and nearest-neighbour is
    the one policy the spec defines on them. *)
Inductive float_kind : Type :=
| linear
| nearest.

Inductive other_kind : Type :=
| nearest_neighbour.

(** Modelled from the spec: glossary, bracketing samples, for the absent
    [preprocess.interpolate]: the two consecutive rows around a target
    timestamp.  The first pair whose later key reaches [t] is taken; on a
    sorted table and [t] not before the first key, its earlier key is at
    most [t]. *)
Fixpoint bracket {A} (t : Z) (ks : list Z) (vs : list A)
  : option ((Z * A) * (Z * A)) :=
  match ks, vs with
  | k0 :: ks', v0 :: vs' =>
      match ks', vs' with
      | k1 :: _, v1 :: _ =>
          if t <=? k1 then Some ((k0, v0), (k1, v1)) else bracket t ks' vs'
      | _, _ => None
      end
  | _, _ => None
  end.

(** Modelled from the spec: section 4.2, linear policy of the absent
    [preprocess.interpolate]: [v = v0 + (v1 - v0) * (t - t0) / (t1 - t0)]. *)
Definition lerp (p0 p1 : Z * float) (t : Z) : float :=
  (snd p0 + (snd p1 - snd p0) * Z2f (t - fst p0) / Z2f (fst p1 - fst p0))%Qc.

(** Modelled from the spec: section 4.2, nearest-neighbour policy of the
    absent [preprocess.interpolate]: the bracketing sample whose timestamp
    is closest, a tie going to the earlier one. *)
Definition nearer {A} (p0 p1 : Z * A) (t : Z) : A :=
  if t - fst p0 <=? fst p1 - t then snd p0 else snd p1.

Fixpoint mapM {A B} (f : A -> option B) (l : list A) : option (list B) :=
  match l with
  | [] => Some []
  | x :: l' =>
      match f x, mapM f l' with
      | Some y, Some ys => Some (y :: ys)
      | _, _ => None
      end
  end.

(** One column evaluated at every target timestamp. *)
Definition interp_values {A} (rule : Z * A -> Z * A -> Z -> A)
    (ks : list Z) (vs : list A) (new_timestamps : list Z) : option (list A) :=
  mapM (fun t =>
          match bracket t ks vs with
          | Some (p0, p1) => Some (rule p0 p1 t)
          | None => None
          end) new_timestamps.

(** Modelled from the spec: section 4.2, column type dispatch of the absent
    [preprocess.interpolate]. *)
Definition interp_column (float_policy : float_kind) (other_policy : other_kind)
    (ks new_timestamps : list Z) (c : column) : option column :=
  match c with
  | FloatCol xs =>
      match float_policy with
      | linear => option_map FloatCol (interp_values lerp ks xs new_timestamps)
      | nearest => option_map FloatCol (interp_values nearer ks xs new_timestamps)
      end
  | OtherCol xs =>
      match other_policy with
      | nearest_neighbour =>
          option_map OtherCol (interp_values nearer ks xs new_timestamps)
      end
  end.

(** Modelled from the spec: the body of [preprocess.interpolate] is absent.
    Section 4.2: InsufficientData below two rows; OutOfRange when a target
    lies outside [[first_ts, last_ts]]; otherwise the table keyed by
    [new_timestamps] with one interpolated value per column and row.  (A
    column shorter than the index has no bracketing pair for late targets;
    no pandas frame is like that, and the model answers OutOfRange.) *)
Definition interpolate (new_timestamps : list Z) (table : DataFrame)
    (float_policy : float_kind) (other_policy : other_kind) : result DataFrame :=
  match index table with
  | first :: _ :: _ =>
      let last_ := last (index table) first in
      if forallb (fun t => (first <=? t) && (t <=? last_)) new_timestamps
      then
        match mapM (fun nc =>
                      option_map (pair (fst nc))
                        (interp_column float_policy other_policy
                           (index table) new_timestamps (snd nc)))
                   (columns table) with
        | Some cols => Ok (mkDataFrame new_timestamps cols)
        | None => Raise OutOfRange
        end
      else Raise OutOfRange
  | _ => Raise InsufficientData
  end.

End preprocess.

(** ** pyneon/stream.py *)

Module stream.

Import preprocess.

(** The classes of the file. *)
Inductive stream_class : Type :=
| NeonGaze
| NeonEyeStates
| NeonIMU
| CustomStream.

(** The attributes of a [NeonStream] object. *)
Record NeonStream : Type := mkNeonStream {
  data : DataFrame;
  timestamps : list Z;
  ts : list Z;
  first_ts : Z;
  last_ts : Z;
  times : list float;
  duration : float;
  sampling_freq_effective : float;
  sampling_freq_nominal : option Z
}.

Definition set_data (v : DataFrame) (s : NeonStream) : NeonStream :=
  mkNeonStream v (timestamps s) (ts s) (first_ts s) (last_ts s) (times s)
    (duration s) (sampling_freq_effective s) (sampling_freq_nominal s).
Definition set_timestamps (v : list Z) (s : NeonStream) : NeonStream :=
  mkNeonStream (data s) v (ts s) (first_ts s) (last_ts s) (times s)
    (duration s) (sampling_freq_effective s) (sampling_freq_nominal s).
Definition set_ts (v : list Z) (s : NeonStream) : NeonStream :=
  mkNeonStream (data s) (timestamps s) v (first_ts s) (last_ts s) (times s)
    (duration s) (sampling_freq_effective s) (sampling_freq_nominal s).
Definition set_first_ts (v : Z) (s : NeonStream) : NeonStream :=
  mkNeonStream (data s) (timestamps s) (ts s) v (last_ts s) (times s)
    (duration s) (sampling_freq_effective s) (sampling_freq_nominal s).
Definition set_last_ts (v : Z) (s : NeonStream) : NeonStream :=
  mkNeonStream (data s) (timestamps s) (ts s) (first_ts s) v (times s)
    (duration s) (sampling_freq_effective s) (sampling_freq_nominal s).
Definition set_times (v : list float) (s : NeonStream) : NeonStream :=
  mkNeonStream (data s) (timestamps s) (ts s) (first_ts s) (last_ts s) v
    (duration s) (sampling_freq_effective s) (sampling_freq_nominal s).
Definition set_duration (v : float) (s : NeonStream) : NeonStream :=
  mkNeonStream (data s) (timestamps s) (ts s) (first_ts s) (last_ts s) (times s)
    v (sampling_freq_effective s) (sampling_freq_nominal s).
Definition set_sampling_freq_effective (v : float) (s : NeonStream) : NeonStream :=
  mkNeonStream (data s) (timestamps s) (ts s) (first_ts s) (last_ts s) (times s)
    (duration s) v (sampling_freq_nominal s).
Definition set_sampling_freq_nominal (v : option Z) (s : NeonStream) : NeonStream :=
  mkNeonStream (data s) (timestamps s) (ts s) (first_ts s) (last_ts s) (times s)
    (duration s) (sampling_freq_effective s) v.

(** A method body: it runs on [self], may assign attributes, and returns a
    value or raises.  What was assigned before a [raise] stays. *)
Definition M (A : Type) : Type := NeonStream -> NeonStream * result A.

Definition ret {A} (a : A) : M A := fun self => (self, Ok a).

Definition bind {A B} (m : M A) (k : A -> M B) : M B :=
  fun self =>
    match m self with
    | (self', Ok a) => k a self'
    | (self', Raise e) => (self', Raise e)
    end.

(** An expression that may raise and touches no attribute. *)
Definition lift {A} (r : result A) : M A := fun self => (self, r).

(** [self.f] *)
Definition attr {A} (f : NeonStream -> A) : M A := fun self => (self, Ok (f self)).

(** [self.f = v] *)
Definition assign (set : NeonStream -> NeonStream) : M unit :=
  fun self => (set self, Ok tt).

(** [assert b] *)
Definition assert (b : bool) : M unit :=
  fun self => (self, if b then Ok tt else Raise AssertionError).

Notation "x <- c1 ;; c2" := (bind c1 (fun x => c2))
  (at level 61, c1 at next level, right associativity).
Notation "c1 ;; c2" := (bind c1 (fun _ => c2))
  (at level 61, right associativity).

(** One entry of [(self.ts - self.first_ts) / 1e9]: an [int64] subtraction,
    then a float division. *)
Definition elapsed (first t : Z) : float := (Z2f (sub64 t first) / f1e9)%Qc.

(** [NeonStream._get_attributes].
    [float(self.times[-1] - self.times[0])] is zero exactly when
    the [int64] difference of the last and first timestamps is zero, in
    binary64 as on the exact values (a non-zero integer divided by [1e9]
    does not round to zero), so the last division raises in the same
    cases. *)
Definition _get_attributes : M unit :=
  d <- attr data ;;
  assign (set_timestamps (index d)) ;;
  a <- attr timestamps ;;
  assign (set_ts a) ;;
  a <- attr ts ;;
  x <- lift (getitem a 0) ;;
  assign (set_first_ts x) ;;
  a <- attr ts ;;
  y <- lift (getitem a (-1)) ;;
  assign (set_last_ts y) ;;
  a <- attr ts ;;
  first <- attr first_ts ;;
  assign (set_times (map (elapsed first) a)) ;;
  d <- attr data ;;
  tm <- attr times ;;
  assign (set_data (setitem "time [s]" (FloatCol tm) d)) ;;
  tm <- attr times ;;
  tl <- lift (getitem tm (-1)) ;;
  th <- lift (getitem tm 0) ;;
  assign (set_duration (tl - th)%Qc) ;;
  d <- attr data ;;
  dur <- attr duration ;;
  q <- lift (truediv (Z2f (shape0 d)) dur) ;;
  assign (set_sampling_freq_effective q).

(** [NeonStream.crop].  With [inplace] the frame returned is the object now
    held in [self.data], so it is read back after [_get_attributes] wrote
    the time column into it. *)
Definition crop (tmin tmax : option float) (by_ : unit_of_bound)
    (inplace : bool) : M DataFrame :=
  d <- attr data ;;
  new_data <- lift (preprocess.crop d tmin tmax by_) ;;
  if inplace
  then assign (set_data new_data) ;; _get_attributes ;; attr data
  else ret new_data.

(** The [if new_ts is None] block of [NeonStream.interpolate].  The nominal
    frequency is a Python [int] or [None]; [1e9 / None] raises TypeError.
    For an integer frequency [int(1e9 / f)] is the truncated exact quotient:
    the binary64 quotient cannot round up onto the next integer, the exact
    one being at least [1 / f] away from it. *)
Definition nominal_grid : M (list Z) :=
  f <- attr sampling_freq_nominal ;;
  q <- lift (match f with
             | None => Raise TypeError
             | Some f => truediv f1e9 (Z2f f)
             end) ;;
  let step_size := int q in
  a <- attr first_ts ;;
  b <- attr last_ts ;;
  new_ts <- lift (arange a b step_size) ;;
  x <- lift (getitem new_ts 0) ;;
  a <- attr first_ts ;;
  assert (x =? a) ;;
  assert (forallb (fun d => d =? step_size) (diff new_ts)) ;;
  ret new_ts.

(** The timestamps [NeonStream.interpolate] evaluates at. *)
Definition target_timestamps (new_ts : option (list Z)) : M (list Z) :=
  match new_ts with
  | None => nominal_grid
  | Some a => ret a
  end.

(** [NeonStream.interpolate] *)
Definition interpolate (new_ts : option (list Z)) (float_kind_ : float_kind)
    (other_kind_ : other_kind) (inplace : bool) : M DataFrame :=
  new_ts <- target_timestamps new_ts ;;
  d <- attr data ;;
  new_data <- lift (preprocess.interpolate new_ts d float_kind_ other_kind_) ;;
  if inplace
  then assign (set_data new_data) ;; _get_attributes ;; attr data
  else ret new_data.

(** The value each class's [__init__] gives to [sampling_freq_nominal]. *)
Definition class_sampling_freq_nominal (c : stream_class) : option Z :=
  match c with
  | NeonGaze => Some 200
  | NeonEyeStates => Some 200
  | NeonIMU => Some 110
  | CustomStream => None
  end.

(** An object on which no derived attribute has been assigned yet.  The
    placeholders are never seen: a constructor returns the object only after
    [_get_attributes] has assigned every one of them. *)
Definition fresh_object (d : DataFrame) : NeonStream :=
  mkNeonStream d [] [] 0 0 [] 0%Qc 0%Qc None.

(** [__init__] of the four classes.  [d] is the frame the object starts
    with: the one [NeonTabular.__init__] (not part of this file) loads from
    the CSV file, or the one the caller hands to [CustomStream].  The
    file-based classes run [_get_attributes], then set the nominal frequency
    and cast columns with [astype]; the columns of the model carry their
    dtype already, so the cast leaves a frame that follows the class's
    schema as it is.  [CustomStream] sets the frequency to [None] first. *)
Definition init (c : stream_class) (d : DataFrame) : result NeonStream :=
  match c with
  | CustomStream =>
      match _get_attributes (set_sampling_freq_nominal None (fresh_object d)) with
      | (self, Ok _) => Ok self
      | (_, Raise e) => Raise e
      end
  | _ =>
      match _get_attributes (fresh_object d) with
      | (self, Ok _) =>
          Ok (set_sampling_freq_nominal (class_sampling_freq_nominal c) self)
      | (_, Raise e) => Raise e
      end
  end.

(** A call of one of the two methods with [inplace=True]. *)
Inductive call : Type :=
| Crop (tmin tmax : option float) (by_ : unit_of_bound)
| Interpolate (new_ts : option (list Z)) (float_kind_ : float_kind)
    (other_kind_ : other_kind).

Definition mutate (c : call) : M DataFrame :=
  match c with
  | Crop tmin tmax by_ => crop tmin tmax by_ true
  | Interpolate new_ts fk ok => interpolate new_ts fk ok true
  end.

(** The derived attributes of an object, gathered. *)
Record attributes : Type := mkAttributes {
  a_timestamps : list Z;
  a_first_ts : Z;
  a_last_ts : Z;
  a_times : list float;
  a_duration : float;
  a_sampling_freq_effective : float
}.

Definition attributes_of_stream (s : NeonStream) : attributes :=
  mkAttributes (timestamps s) (first_ts s) (last_ts s) (times s) (duration s)
    (sampling_freq_effective s).

(** The derived attributes as the data model describes them, computed from
    a table alone: its keys, the first and the last key, the elapsed time of
    every row since the first, the elapsed time between first and last row,
    and the row count over that duration.  A table without rows, or of zero
    duration, has none. *)
Definition attributes_of_table (df : DataFrame) : option attributes :=
  match index df with
  | [] => None
  | first :: _ =>
      let last_ := last (index df) first in
      let dur := (elapsed first last_ - elapsed first first)%Qc in
      if Qc_eq_bool dur 0%Qc then None
      else Some (mkAttributes (index df) first last_
                   (map (elapsed first) (index df)) dur
                   (Z2f (shape0 df) / dur)%Qc)
  end.

(** [installs d s']: the object [s'] is what a constructor or a call with
    [inplace=True] leaves after making [d] the owned table: [d] is the frame
    given to [__init__], or the frame [preprocess.crop] or
    [preprocess.interpolate] returned to the method. *)
Inductive installs : DataFrame -> NeonStream -> Prop :=
| installs_init c d s' :
    init c d = Ok s' ->
    installs d s'
| installs_crop s tmin tmax by_ new_data r s' :
    preprocess.crop (data s) tmin tmax by_ = Ok new_data ->
    crop tmin tmax by_ true s = (s', Ok r) ->
    installs new_data s'
| installs_interpolate s new_ts grid fk ok new_data r s' :
    target_timestamps new_ts s = (s, Ok grid) ->
    preprocess.interpolate grid (data s) fk ok = Ok new_data ->
    interpolate new_ts fk ok true s = (s', Ok r) ->
    installs new_data s'.

End stream.

(** ** pyneon/vis/vis_video.py

    The two plotting functions of the file, [plot_frame] and
    [plot_distribution].  What they do is call matplotlib and the video:
    a function body is a function from the calls made so far to the calls
    made afterwards and either a value or the exception raised.  The
    recording, the video and the events are represented by the attributes
    the two functions read; the histogram and the filter, which the file
    takes from numpy and scipy, are arguments. *)

Module vis_video.

(** The exceptions of the file, with their messages, and those of the
    expressions it evaluates. *)
Inductive error : Type :=
| ValueError (msg : string)
| IndexError (msg : string)
| RuntimeError (msg : string)
| ZeroDivisionError          (* [a // 0] *)
| KeyError (key : string).   (* [df[key]] without such a column *)

Inductive outcome (A : Type) : Type :=
| Done (a : A)
| Raised (e : error).
Arguments Done {A} a.
Arguments Raised {A} e.

(** [str(n)] for a Python [int]. *)
Definition str (n : Z) : string := NilZero.string_of_int (Z.to_int n).

(** A frame: rows of pixels, three channels each. *)
Definition image : Type := list (list (Z * Z * Z)).

(** [cv2.cvtColor(frame, cv2.COLOR_BGR2RGB)]: the first and third channel
    of every pixel change places. *)
Definition cvtColor (frame : image) : image :=
  map (map (fun p => match p with (b, g, r) => (r, g, b) end)) frame.

(** What the file uses of a [NeonVideo], a [cv2.VideoCapture]: the
    timestamps, the frame size, the file name, [len(video)] and, for a frame
    index, what [video.read()] gives after
    [video.set(cv2.CAP_PROP_POS_FRAMES, index)]: the frame, or nothing when
    [ret] is false. *)
Record NeonVideo : Type := mkNeonVideo {
  video_ts : list Z;
  width : Z;
  height : Z;
  video_file_name : string;
  video_len : Z;
  frame_at : Z -> option image
}.

(** What the file uses of a [NeonEV] of [events.py]: its [data]. *)
Record NeonEV : Type := mkNeonEV {
  events_data : DataFrame
}.

(** What the file uses of a [NeonRecording]. *)
Record NeonRecording : Type := mkNeonRecording {
  video : option NeonVideo;
  gaze : option stream.NeonStream;
  fixations : option NeonEV
}.

(** A histogram: counts per bin. *)
Definition heatmap : Type := list (list float).

(** The two numerical routines [plot_distribution] calls, which may raise:
    [np.histogram2d(x, y, bins=(x_edges, y_edges))] and
    [scipy.ndimage.gaussian_filter(heatmap, sigma=sigma)]. *)
Record numerics : Type := mkNumerics {
  histogram2d : column -> column -> list float -> list float -> outcome heatmap;
  gaussian_filter : heatmap -> option float -> outcome heatmap
}.

(** The calls made on the video and on matplotlib, in the order made. *)
Inductive event : Type :=
| subplots                       (* [fig, ax = plt.subplots()] *)
| get_figure                     (* [fig = ax.get_figure()] *)
| video_set (index : Z)          (* [video.set(CAP_PROP_POS_FRAMES, index)] *)
| video_read                     (* [video.read()] *)
| imshow_frame (img : image)
| imshow_transposed (h : list (list float)) (cmap : option string)
    (extent : Z * Z * Z * Z)       (* [ax.imshow(heatmap.T, ...)] *)
| colorbar
| scatter (x y : column)
| set_title (title : string)
| axis_off
| set_xlim (lo hi : Z)
| set_ylim (lo hi : Z)
| set_aspect
| set_xlabel (label : string)
| set_ylabel (label : string).

(** The axes a function ends up drawing on: the ones it was given, or new
    ones. *)
Inductive axes : Type :=
| given (ax : nat)
| created.

(** A function body: it appends to the calls made so far and returns a value
    or raises. *)
Definition P (A : Type) : Type := list event -> list event * outcome A.

Definition ret {A} (a : A) : P A := fun calls => (calls, Done a).

Definition raise {A} (e : error) : P A := fun calls => (calls, Raised e).

Definition bind {A B} (m : P A) (k : A -> P B) : P B :=
  fun calls =>
    match m calls with
    | (calls', Done a) => k a calls'
    | (calls', Raised e) => (calls', Raised e)
    end.

Definition emit (e : event) : P unit := fun calls => (calls ++ [e], Done tt).

Definition lift {A} (r : outcome A) : P A := fun calls => (calls, r).

Notation "x <- c1 ;; c2" := (bind c1 (fun x => c2))
  (at level 61, c1 at next level, right associativity).
Notation "c1 ;; c2" := (bind c1 (fun _ => c2))
  (at level 61, right associativity).

(** [if ax is None: fig, ax = plt.subplots() else: fig = ax.get_figure()] *)
Definition figure_of (ax : option nat) : P axes :=
  match ax with
  | None => emit subplots ;; ret created
  | Some a => emit get_figure ;; ret (given a)
  end.

(** [plot_frame] *)
Definition plot_frame (video_ : NeonVideo) (index : Z) (ax : option nat)
    (auto_title : bool) : P axes :=
  if (index >=? Z.of_nat (length (video_ts video_))) || (index <? 0)
  then raise (IndexError ("Frame index " ++ str index ++ " out of range")%string)
  else
    ax <- figure_of ax ;;
    emit (video_set index) ;;
    emit video_read ;;
    match frame_at video_ index with
    | Some frame =>
        emit (imshow_frame (cvtColor frame)) ;;
        (if auto_title
         then emit (set_title (video_file_name video_ ++ " | Frame "
                                 ++ str (index + 1) ++ "/"
                                 ++ str (video_len video_))%string)
         else ret tt) ;;
        emit axis_off ;;
        ret ax
    | None => raise (RuntimeError ("Could not read frame " ++ str index)%string)
    end.

(** [np.linspace(0, stop, num)] for integer [stop]: [num] evenly spaced
    values from 0 to [stop], both included; the single value 0 for
    [num = 1]; ValueError for a negative [num]. *)
Definition linspace (stop num : Z) : outcome (list float) :=
  if num <? 0
  then Raised (ValueError ("Number of samples, " ++ str num
                           ++ ", must be non-negative.")%string)
  else if num =? 1 then Done [0%Qc]
  else Done (map (fun i => (Z2f (Z.of_nat i) * Z2f stop / Z2f (num - 1))%Qc)
                 (seq 0 (Z.to_nat num))).

(** [np.linspace(0, size, size // step_size + 1)] *)
Definition edges (size step_size : Z) : outcome (list float) :=
  if step_size =? 0 then Raised ZeroDivisionError
  else linspace size (size / step_size + 1).

(** [df[key]] *)
Definition column_of (df : DataFrame) (key : string) : outcome column :=
  match getcol key (columns df) with
  | Some c => Done c
  | None => Raised (KeyError key)
  end.

(** The values of [heatmap_source] and [scatter_source] other than [None]. *)
Inductive source : Type :=
| from_gaze
| from_fixations.

Definition is_gaze (s : option source) : bool :=
  match s with
  | Some from_gaze => true
  | _ => false
  end.

(** [plot_distribution].  It returns nothing. *)
Definition plot_distribution (np_ : numerics) (rec : NeonRecording)
    (heatmap_source scatter_source : option source) (step_size : Z)
    (sigma : option float) (width_height : option (Z * Z))
    (cmap : option string) (ax : option nat) : P unit :=
  match heatmap_source, scatter_source with
  | None, None =>
      raise (ValueError
        "At least one of heatmap_source and scatter_source must be provided.")
  | _, _ =>
      width_height <-
        match video rec with
        | None =>
            match width_height with
            | None =>
                raise (ValueError
                  "No video data available and no width_height provided.")
            | Some wh => ret wh
            end
        | Some v => ret (width v, height v)
        end ;;
      match gaze rec with
      | None => raise (ValueError "No gaze data available.")
      | Some gaze_ =>
          match fixations rec with
          | None => raise (ValueError "No fixation data available.")
          | Some fixations_ =>
              figure_of ax ;;
              x_edges <- lift (edges (fst width_height) step_size) ;;
              y_edges <- lift (edges (snd width_height) step_size) ;;
              gaze_x <- lift (column_of (stream.data gaze_) "gaze x [px]") ;;
              gaze_y <- lift (column_of (stream.data gaze_) "gaze y [px]") ;;
              fix_x <- lift (column_of (events_data fixations_)
                               "fixation x [px]") ;;
              fix_y <- lift (column_of (events_data fixations_)
                               "fixation y [px]") ;;
              let heatmap_x := if is_gaze heatmap_source then gaze_x else fix_x in
              let heatmap_y := if is_gaze heatmap_source then gaze_y else fix_y in
              let scatter_x := if is_gaze scatter_source then gaze_x else fix_x in
              let scatter_y := if is_gaze scatter_source then gaze_y else fix_y in
              h <- lift (histogram2d np_ heatmap_x heatmap_y x_edges y_edges) ;;
              h <- lift (gaussian_filter np_ h sigma) ;;
              (match heatmap_source with
               | Some _ =>
                   emit (imshow_transposed h cmap
                           (0, fst width_height, 0, snd width_height)) ;;
                   emit colorbar
               | None => ret tt
               end) ;;
              (match scatter_source with
               | Some _ => emit (scatter scatter_x scatter_y)
               | None => ret tt
               end) ;;
              emit (set_xlim 0 (fst width_height)) ;;
              emit (set_ylim 0 (snd width_height)) ;;
              emit set_aspect ;;
              emit (set_xlabel "Scene camera x [px]") ;;
              emit (set_ylabel "Scene camera y [px]")
          end
      end
  end.

End vis_video.

(** ** Notions used in the statements *)


(** The table of the spec's examples: timestamps [0, 10, 20] and one float
    column [1.0, 3.0, 5.0]. *)
Definition example_table : DataFrame :=
  mkDataFrame [0; 10; 20] [("x"%string, FloatCol [Z2f 1; Z2f 3; Z2f 5])].

(** Three gaze samples at the nominal 200 Hz, one second after the epoch. *)
Definition gaze_table : DataFrame :=
  mkDataFrame [1000000000; 1005000000; 1010000000]
    [("gaze x [px]"%string, FloatCol [Z2f 800; Z2f 802; Z2f 801]);
     ("worn"%string, OtherCol [VBool true; VBool true; VBool true])].


Definition attributes_or_default (o : option stream.attributes)
  : stream.attributes :=
  match o with
  | Some a => a
  | None => stream.mkAttributes [] 0 0 [] 0%Qc 0%Qc
  end.


Definition object_of (r : result stream.NeonStream) : stream.NeonStream :=
  match r with
  | Ok s => s
  | Raise _ => stream.fresh_object (mkDataFrame [] [])
  end.

Definition gaze_stream : stream.NeonStream :=
  object_of (stream.init stream.NeonGaze gaze_table).

Definition custom_stream : stream.NeonStream :=
  object_of (stream.init stream.CustomStream example_table).

(** A custom stream of two samples 40 ms apart whose owner has set the
    nominal frequency to 60 Hz, the one way to use the default grid on a
    [CustomStream]. *)
Definition sparse_table : DataFrame :=
  mkDataFrame [0; 40000000] [("x"%string, FloatCol [Z2f 1; Z2f 2])].

Definition sixty_hz_stream : stream.NeonStream :=
  stream.set_sampling_freq_nominal (Some 60)
    (object_of (stream.init stream.CustomStream sparse_table)).

(** [crop(tmin=5, tmax=20, inplace=True)] on the stream above. *)
Definition example_call : stream.call :=
  stream.Crop (Some (Z2f 5)) (Some (Z2f 20)) preprocess.by_timestamp.

Definition cropped_stream : stream.NeonStream :=
  fst (stream.mutate example_call custom_stream).

(** What [crop(tmin=5, tmax=15)] returns on that stream: the one row at
    timestamp 10, with the time it had in the uncropped table. *)
Definition single_row_table : DataFrame :=
  mkDataFrame [10]
    [("x"%string, FloatCol [Z2f 3]);
     ("time [s]"%string, FloatCol [stream.elapsed 0 10])].

(** A call of [crop] or [interpolate] with [inplace=False]. *)
Definition copy (c : stream.call) : stream.M DataFrame :=
  match c with
  | stream.Crop tmin tmax by_ => stream.crop tmin tmax by_ false
  | stream.Interpolate new_ts fk ok => stream.interpolate new_ts fk ok false
  end.

(** What [crop(tmin=5, tmax=20)] returns on the custom stream. *)
Definition cropped_copy : DataFrame :=
  match snd (copy example_call custom_stream) with
  | Ok r => r
  | Raise _ => mkDataFrame [] []
  end.

(** A crop whose bounds are the wrong way round. *)
Definition inverted_call : stream.call :=
  stream.Crop (Some (Z2f 15)) (Some (Z2f 5)) preprocess.by_timestamp.

(** The custom stream's table resampled at no timestamp at all. *)
Definition empty_resampled : DataFrame :=
  match preprocess.interpolate [] (stream.data custom_stream)
          preprocess.linear preprocess.nearest_neighbour with
  | Ok d => d
  | Raise _ => example_table
  end.

(** A gaze stream whose two rows are stored latest first. *)
Definition reversed_table : DataFrame :=
  mkDataFrame [1005000000; 1000000000]
    [("gaze x [px]"%string, FloatCol [Z2f 802; Z2f 800])].

Definition reversed_stream : stream.NeonStream :=
  object_of (stream.init stream.NeonGaze reversed_table).

(** A recording with a 40 x 30 scene video of three frames, the last of
    which cannot be read, two gaze samples and two fixations. *)
Definition example_video : vis_video.NeonVideo :=
  vis_video.mkNeonVideo [0; 33000000; 66000000] 40 30 "scene.mp4" 3
    (fun i => if i <? 2 then Some [[(10, 20, 30); (40, 50, 60)]] else None).

Definition scene_gaze_table : DataFrame :=
  mkDataFrame [1000000000; 1005000000]
    [("gaze x [px]"%string, FloatCol [Z2f 12; Z2f 25]);
     ("gaze y [px]"%string, FloatCol [Z2f 7; Z2f 18])].

Definition fixation_table : DataFrame :=
  mkDataFrame [1; 2]
    [("fixation x [px]"%string, FloatCol [Z2f 14; Z2f 24]);
     ("fixation y [px]"%string, FloatCol [Z2f 9; Z2f 17])].

Definition example_recording : vis_video.NeonRecording :=
  vis_video.mkNeonRecording (Some example_video)
    (Some (object_of (stream.init stream.NeonGaze scene_gaze_table)))
    (Some (vis_video.mkNeonEV fixation_table)).

(** The same recording without its fixations. *)
Definition recording_without_fixations : vis_video.NeonRecording :=
  vis_video.mkNeonRecording (Some example_video)
    (Some (object_of (stream.init stream.NeonGaze scene_gaze_table))) None.

(** Numerical routines that count nothing and smooth nothing: an all-zero
    histogram with one cell per bin, returned unchanged by the filter. *)
Definition blank_numerics : vis_video.numerics :=
  vis_video.mkNumerics
    (fun _ _ x_edges y_edges =>
       vis_video.Done (map (fun _ => map (fun _ => 0%Qc) (tl y_edges))
                           (tl x_edges)))
    (fun h _ => vis_video.Done h).

(** The calls [plot_distribution] makes on that recording with the default
    sources, a bin width of 10 and the numerical routines above. *)
Definition example_drawing : list vis_video.event :=
  fst (vis_video.plot_distribution blank_numerics example_recording
         (Some vis_video.from_gaze) (Some vis_video.from_fixations) 10 None
         None None None []).

(** Goals on [Qc] restated on [Q], where [lra] and [nra] work. *)
Ltac to_Q :=
  unfold Qcle, Qclt, Qcdiv, Qcminus, Qcplus, Qcmult, Qcopp, Qcinv, Z2f in *;
  cbn [this Q2Qc] in *; rewrite ?Qred_correct in *.

Import preprocess stream.

(** * Properties *)

(** ** Sequences, [int64] and numbers *)

Lemma wrap64_small z : - 2 ^ 63 <= z < 2 ^ 63 -> wrap64 z = z.
Proof.
  intros H. unfold wrap64. rewrite Z.mod_small; lia.
Qed.

Lemma getitem_head {A} (x : A) (l : list A) : getitem (x :: l) 0 = Ok x.
Proof.
  unfold getitem. cbn [length Z.ltb Z.compare].
  destruct (Z.leb_spec 0 0); [| lia].
  destruct (Z.ltb_spec 0 (Z.of_nat (S (length l)))); [| lia].
  reflexivity.
Qed.

Lemma getitem_empty {A} (i : Z) : getitem (@nil A) i = Raise IndexError.
Proof.
  unfold getitem. destruct (_ && _); [| reflexivity].
  destruct (Z.to_nat _); reflexivity.
Qed.

Lemma last_cons_default {A} (x : A) (l : list A) (d d' : A) :
  last (x :: l) d = last (x :: l) d'.
Proof.
  revert x. induction l as [| y l IH]; intros x; [reflexivity |].
  change (last (y :: l) d = last (y :: l) d'). apply IH.
Qed.

Lemma nth_error_last {A} (x : A) (l : list A) :
  nth_error (x :: l) (length l) = Some (last (x :: l) x).
Proof.
  revert x. induction l as [| y l IH]; intros x; [reflexivity |].
  change (nth_error (y :: l) (length l) = Some (last (y :: l) x)).
  rewrite (last_cons_default y l x y). apply IH.
Qed.

Lemma getitem_last {A} (x : A) (l : list A) :
  getitem (x :: l) (-1) = Ok (last (x :: l) x).
Proof.
  unfold getitem. cbn [Z.ltb Z.compare].
  replace (Z.of_nat (length (x :: l)) + -1) with (Z.of_nat (length l))
    by (cbn [length]; lia).
  destruct (Z.leb_spec 0 (Z.of_nat (length l))); [| lia].
  destruct (Z.ltb_spec (Z.of_nat (length l)) (Z.of_nat (length (x :: l))));
    [| cbn [length] in *; lia].
  cbn [andb]. rewrite Nat2Z.id, nth_error_last. reflexivity.
Qed.

Lemma getitem_map {A B} (f : A -> B) (a : list A) (i : Z) :
  getitem (map f a) i
  = match getitem a i with Ok x => Ok (f x) | Raise e => Raise e end.
Proof.
  unfold getitem. rewrite length_map, nth_error_map.
  destruct (_ && _); [| reflexivity].
  destruct (nth_error a _); reflexivity.
Qed.

Lemma Z2f_inj a b : Z2f a = Z2f b -> a = b.
Proof.
  intros H. apply (f_equal this) in H.
  change (Qred (inject_Z a) = Qred (inject_Z b)) in H.
  apply Qred_eq_iff in H. unfold Qeq in H. cbn in H. lia.
Qed.

Lemma Z2f_0 : Z2f 0 = 0%Qc.
Proof. apply Qc_is_canon. reflexivity. Qed.

Lemma Z2f_nonzero z : z <> 0 -> Z2f z <> 0%Qc.
Proof. intros H E. rewrite <- Z2f_0 in E. apply Z2f_inj in E. contradiction. Qed.


Lemma truediv_by_zero a : truediv a 0%Qc = Raise ZeroDivisionError.
Proof.
  unfold truediv, Qc_eq_bool.
  destruct (Qc_eq_dec 0 0); [reflexivity | contradiction].
Qed.

Lemma truediv_nonzero a b : b <> 0%Qc -> truediv a b = Ok (a / b)%Qc.
Proof.
  intros H. unfold truediv. destruct (Qc_eq_bool b 0) eqn:E; [| reflexivity].
  apply Qc_eq_bool_correct in E. contradiction.
Qed.

Lemma fle_iff (a b : float) : fle a b = true <-> (a <= b)%Qc.
Proof. unfold fle, Qcle. apply Qle_bool_iff. Qed.

Lemma flt_iff (a b : float) : flt a b = true <-> (a < b)%Qc.
Proof.
  unfold flt, Qclt. rewrite negb_true_iff, <- not_true_iff_false, Qle_bool_iff.
  split; [apply Qnot_le_lt | apply Qlt_not_le].
Qed.

(** ** [np.arange] and the nominal grid *)

Lemma arange_increasing start stop step :
  0 < step -> start < stop ->
  exists n,
    arange start stop step
    = Ok (map (fun i => start + Z.of_nat i * step) (seq 0 (S n)))
    /\ start + Z.of_nat n * step < stop.
Proof.
  intros Hstep Hlt. unfold arange.
  destruct (Z.eqb_spec step 0) as [E | _]; [lia |].
  pose proof (Z.div_mod (- (stop - start)) step ltac:(lia)) as Hdm.
  pose proof (Z.mod_pos_bound (- (stop - start)) step Hstep) as Hr.
  set (q := - (stop - start) / step) in *.
  assert (Hq : q <= -1) by nia.
  exists (Z.to_nat (- q - 1)). split.
  - do 2 f_equal. rewrite Z.max_r by lia.
    replace (- q) with (Z.succ (- q - 1)) at 1 by lia.
    rewrite Z2Nat.inj_succ by lia. reflexivity.
  - rewrite Z2Nat.id by lia. nia.
Qed.

Lemma diff_cons x y (rest : list Z) :
  diff (x :: y :: rest) = sub64 y x :: diff (y :: rest).
Proof. reflexivity. Qed.

Lemma diff_progression start step n k :
  wrap64 step = step ->
  forallb (fun d => d =? step)
    (diff (map (fun i => start + Z.of_nat i * step) (seq k n))) = true.
Proof.
  intros Hw. revert k. induction n as [| n IH]; intros k; [reflexivity |].
  destruct n as [| n]; [reflexivity |].
  specialize (IH (S k)).
  change (seq k (S (S n))) with (k :: S k :: seq (S (S k)) n).
  change (seq (S k) (S n)) with (S k :: seq (S (S k)) n) in IH.
  rewrite !map_cons in *. rewrite diff_cons.
  cbn [forallb]. rewrite IH, andb_true_r. apply Z.eqb_eq.
  transitivity (wrap64 step); [| exact Hw].
  unfold sub64. f_equal. rewrite Nat2Z.inj_succ. lia.
Qed.

Lemma nth_error_progression start step n i x :
  nth_error (map (fun i => start + Z.of_nat i * step) (seq 0 n)) i = Some x ->
  x = start + Z.of_nat i * step.
Proof.
  intros H. rewrite nth_error_map in H.
  destruct (nth_error (seq 0 n) i) as [j |] eqn:E; [| discriminate].
  assert (Hlen : (i < length (seq 0 n))%nat) by (apply nth_error_Some; congruence).
  rewrite length_seq in Hlen.
  rewrite (nth_error_nth' _ 0%nat) in E by (rewrite length_seq; lia).
  rewrite seq_nth in E by lia. cbn in E. injection E as <-. cbn in H. congruence.
Qed.

Lemma last_progression start step n d :
  last (map (fun i => start + Z.of_nat i * step) (seq 0 (S n))) d
  = start + Z.of_nat n * step.
Proof.
  rewrite seq_S, map_app. cbn [map]. rewrite last_last. reflexivity.
Qed.

(** The grid the code builds for any frequency whose step is positive: the
    step is [int(1e9 / f)], the truncated quotient. *)
Lemma nominal_grid_run (s : NeonStream) (f : Z) :
  sampling_freq_nominal s = Some f ->
  Z2f f <> 0%Qc ->
  0 < int (f1e9 / Z2f f)%Qc < 2 ^ 63 ->
  first_ts s < last_ts s ->
  exists n,
    nominal_grid s
    = (s, Ok (map (fun i => first_ts s + Z.of_nat i * int (f1e9 / Z2f f)%Qc)
                  (seq 0 (S n))))
    /\ first_ts s + Z.of_nat n * int (f1e9 / Z2f f)%Qc < last_ts s.
Proof.
  intros Hf Hnz Hstep Hlt.
  destruct (arange_increasing (first_ts s) (last_ts s) _ (proj1 Hstep) Hlt)
    as (n & Ha & Hn).
  exists n. split; [| exact Hn].
  unfold nominal_grid, bind, attr, lift, assert, ret. rewrite Hf.
  rewrite truediv_nonzero by exact Hnz.
  rewrite Ha. cbv beta iota.
  rewrite diff_progression by (apply wrap64_small; lia).
  change (seq 0 (S n)) with (0%nat :: seq 1 n). rewrite map_cons.
  rewrite getitem_head. cbv beta iota.
  replace (first_ts s + Z.of_nat 0 * _) with (first_ts s) by (cbn; lia).
  rewrite Z.eqb_refl. reflexivity.
Qed.

(** At the frequencies the classes configure, truncating and rounding the
    quotient give the same step. *)
Lemma configured_step (c : stream_class) (f : Z) :
  class_sampling_freq_nominal c = Some f ->
  Z2f f <> 0%Qc
  /\ 0 < int (f1e9 / Z2f f)%Qc < 2 ^ 63
  /\ int (f1e9 / Z2f f)%Qc = round (f1e9 / Z2f f)%Qc.
Proof.
  intros H. assert (Hf : f = 200 \/ f = 110).
  { destruct c; cbn in H; try discriminate; injection H as <-; auto. }
  destruct Hf as [-> | ->].
  - split; [apply Z2f_nonzero; discriminate |].
    assert (E : int (f1e9 / Z2f 200)%Qc = 5000000) by (vm_compute; reflexivity).
    assert (E' : round (f1e9 / Z2f 200)%Qc = 5000000) by (vm_compute; reflexivity).
    rewrite E, E'. lia.
  - split; [apply Z2f_nonzero; discriminate |].
    assert (E : int (f1e9 / Z2f 110)%Qc = 9090909) by (vm_compute; reflexivity).
    assert (E' : round (f1e9 / Z2f 110)%Qc = 9090909) by (vm_compute; reflexivity).
    rewrite E, E'. lia.
Qed.

Lemma int_nonneg (x : float) : (0 <= x)%Qc -> int x = Qfloor x.
Proof.
  intros H. unfold int. destruct x as [[n d] Hc]. cbn [this Qnum Qden Qfloor] in *.
  unfold Qcle, Qle in H. cbn in H.
  apply Z.quot_div_nonneg; lia.
Qed.

(** [int(1e9 / f)] is the integer quotient, rounded down. *)
Lemma int_truediv_1e9 f :
  0 < f -> int (f1e9 / Z2f f)%Qc = 1000000000 / f.
Proof.
  intros Hf. destruct f as [| p | p]; try lia.
  assert (E : (this (f1e9 / Z2f (Z.pos p))%Qc == 1000000000 # p)%Q).
  { unfold f1e9. to_Q. rewrite (Qmake_Qdiv 1000000000 p). reflexivity. }
  rewrite int_nonneg.
  - rewrite (Qfloor_comp _ _ E). reflexivity.
  - unfold Qcle. rewrite E. unfold Qle. cbn. lia.
Qed.

(** C1, as the code has it.  A stream with a nominal frequency [f] between
    1 Hz and 1e9 Hz whose first timestamp precedes its last: [interpolate]
    called without [new_ts] evaluates at a grid that starts at [first_ts],
    advances between any two neighbours by [int(1e9 / f)], the quotient
    rounded down, and ends before [last_ts].  At the frequencies the classes
    configure (200 Hz and 110 Hz) that step is [round(1e9 / f)]. *)
Theorem nominal_grid_truncated_step (s : NeonStream) (f : Z) :
  sampling_freq_nominal s = Some f ->
  1 <= f <= 1000000000 ->
  first_ts s < last_ts s ->
  exists new_ts,
    nominal_grid s = (s, Ok new_ts)
    /\ (forall fk ok inplace,
          stream.interpolate None fk ok inplace s
          = stream.interpolate (Some new_ts) fk ok inplace s)
    /\ hd_error new_ts = Some (first_ts s)
    /\ (forall i x y,
          nth_error new_ts i = Some x -> nth_error new_ts (S i) = Some y ->
          y - x = int (f1e9 / Z2f f)%Qc)
    /\ last new_ts (first_ts s) < last_ts s
    /\ int (f1e9 / Z2f f)%Qc = 1000000000 / f
    /\ (forall c, class_sampling_freq_nominal c = Some f ->
                  int (f1e9 / Z2f f)%Qc = round (f1e9 / Z2f f)%Qc).
Proof.
  intros Hs Hf Hlt.
  assert (Hint : int (f1e9 / Z2f f)%Qc = 1000000000 / f)
    by (apply int_truediv_1e9; lia).
  assert (Hstep : 0 < int (f1e9 / Z2f f)%Qc < 2 ^ 63).
  { rewrite Hint. split.
    - apply Z.div_str_pos. lia.
    - apply Z.le_lt_trans with 1000000000; [| reflexivity].
      apply Z.div_le_upper_bound; nia. }
  assert (Hnz : Z2f f <> 0%Qc) by (apply Z2f_nonzero; lia).
  destruct (nominal_grid_run s f Hs Hnz Hstep Hlt) as (n & Hrun & Hlast).
  set (step := int (f1e9 / Z2f f)%Qc) in *.
  eexists. split; [exact Hrun |].
  split; [| split; [| split; [| split; [| split]]]].
  - intros fk ok inplace. unfold stream.interpolate, target_timestamps, bind at 1.
    rewrite Hrun. reflexivity.
  - cbn. f_equal. lia.
  - intros i x y Hx Hy.
    apply nth_error_progression in Hx, Hy. subst. rewrite Nat2Z.inj_succ. lia.
  - rewrite last_progression. exact Hlast.
  - exact Hint.
  - intros c Hc. apply (configured_step c f Hc).
Qed.

Lemma nominal_grid_truncated_step_witness :
  sampling_freq_nominal gaze_stream = Some 200
  /\ 1 <= 200 <= 1000000000
  /\ first_ts gaze_stream < last_ts gaze_stream
  /\ exists new_ts,
       nominal_grid gaze_stream = (gaze_stream, Ok new_ts)
       /\ (forall fk ok inplace,
             stream.interpolate None fk ok inplace gaze_stream
             = stream.interpolate (Some new_ts) fk ok inplace gaze_stream)
       /\ hd_error new_ts = Some (first_ts gaze_stream)
       /\ (forall i x y,
             nth_error new_ts i = Some x -> nth_error new_ts (S i) = Some y ->
             y - x = int (f1e9 / Z2f 200)%Qc)
       /\ last new_ts (first_ts gaze_stream) < last_ts gaze_stream
       /\ int (f1e9 / Z2f 200)%Qc = 1000000000 / 200
       /\ (forall c, class_sampling_freq_nominal c = Some 200 ->
                     int (f1e9 / Z2f 200)%Qc = round (f1e9 / Z2f 200)%Qc).
Proof.
  assert (H1 : sampling_freq_nominal gaze_stream = Some 200) by reflexivity.
  assert (H2 : 1 <= 200 <= 1000000000) by lia.
  assert (H3 : first_ts gaze_stream < last_ts gaze_stream) by reflexivity.
  repeat (split; [assumption |]).
  exact (nominal_grid_truncated_step gaze_stream 200 H1 H2 H3).
Defined.

(** C1, as the spec words it, fails on a stream at 60 Hz: the grid of
    [sixty_hz_stream] is [0, 16666666, 33333332], two steps of
    [int(1e9 / 60) = 16666666], while [round(1e9 / 60)] is 16666667. *)
Lemma nominal_grid_step_not_rounded :
  sampling_freq_nominal sixty_hz_stream = Some 60
  /\ first_ts sixty_hz_stream < last_ts sixty_hz_stream
  /\ ~ (exists new_ts,
          nominal_grid sixty_hz_stream = (sixty_hz_stream, Ok new_ts)
          /\ hd_error new_ts = Some (first_ts sixty_hz_stream)
          /\ (forall i x y,
                nth_error new_ts i = Some x -> nth_error new_ts (S i) = Some y ->
                y - x = round (f1e9 / Z2f 60)%Qc)
          /\ last new_ts (first_ts sixty_hz_stream) < last_ts sixty_hz_stream).
Proof.
  split; [reflexivity |]. split; [reflexivity |].
  intros (new_ts & Hrun & _ & Hdiff & _).
  assert (Hgrid : snd (nominal_grid sixty_hz_stream)
                  = Ok [0; 16666666; 33333332])
    by (vm_compute; reflexivity).
  rewrite Hrun in Hgrid. cbn [snd] in Hgrid. clear Hrun.
  injection Hgrid as ->.
  specialize (Hdiff 0%nat 0 16666666 eq_refl eq_refl).
  vm_compute in Hdiff. discriminate Hdiff.
Qed.

Lemma default_grid_needs_rate (s : NeonStream) :
  sampling_freq_nominal s = None ->
  stream.interpolate None linear nearest_neighbour false s = (s, Raise TypeError).
Proof.
  intros H.
  unfold stream.interpolate, target_timestamps, nominal_grid, bind, attr, lift.
  rewrite H. reflexivity.
Qed.

(** C3, as the code has it.  A stream without a nominal sampling
    frequency, such as every [CustomStream]: [interpolate] called without
    [new_ts] raises at the division [1e9 / None], before anything is
    computed or assigned.  The exception is Python's TypeError. *)
Theorem interpolate_without_nominal_rate (s : NeonStream)
    (fk : float_kind) (ok : other_kind) (inplace : bool) :
  sampling_freq_nominal s = None ->
  stream.interpolate None fk ok inplace s = (s, Raise TypeError).
Proof.
  intros H.
  unfold stream.interpolate, target_timestamps, nominal_grid, bind, attr, lift.
  rewrite H. reflexivity.
Qed.

Lemma interpolate_without_nominal_rate_witness :
  sampling_freq_nominal custom_stream = None
  /\ stream.interpolate None linear nearest_neighbour false custom_stream
     = (custom_stream, Raise TypeError).
Proof.
  assert (H : sampling_freq_nominal custom_stream = None) by reflexivity.
  split; [exact H |].
  exact (interpolate_without_nominal_rate custom_stream linear nearest_neighbour
           false H).
Defined.

(** C3, as the spec words it, fails: on a custom stream the call does not
    raise MissingNominalRate. *)
Lemma interpolate_raises_no_missing_nominal_rate :
  sampling_freq_nominal custom_stream = None
  /\ snd (stream.interpolate None linear nearest_neighbour false custom_stream)
     <> Raise MissingNominalRate.
Proof.
  split; [reflexivity |].
  rewrite (default_grid_needs_rate custom_stream); [| reflexivity].
  cbn [snd]. discriminate.
Qed.

(** ** Cropping *)

Lemma select_filter {A} (p : A -> bool) (l : list A) :
  select (map p l) l = filter p l.
Proof.
  induction l as [| x l IH]; [reflexivity |].
  cbn. rewrite IH. reflexivity.
Qed.

Lemma crop_run table tmin tmax by_ lo hi :
  resolve_bounds table tmin tmax by_ = Some (lo, hi) ->
  preprocess.crop table tmin tmax by_ =
  if flt hi lo then Raise InvalidRange
  else match filter (in_range lo hi) (index table) with
       | [] => Raise EmptyResult
       | _ :: _ => Ok (select_rows (map (in_range lo hi) (index table)) table)
       end.
Proof.
  intros H. unfold preprocess.crop. rewrite H. destruct (flt hi lo); [reflexivity |].
  cbn [select_rows index]. rewrite select_filter. reflexivity.
Qed.

Lemma not_flt_of_le (lo hi : float) : (lo <= hi)%Qc -> flt hi lo = false.
Proof.
  intros Hle. destruct (flt hi lo) eqn:E; [| reflexivity].
  apply flt_iff in E. exfalso. exact (Qclt_not_le _ _ E Hle).
Qed.

Lemma in_range_iff lo hi k :
  in_range lo hi k = true <-> (lo <= Z2f k)%Qc /\ (Z2f k <= hi)%Qc.
Proof. unfold in_range. rewrite andb_true_iff, !fle_iff. reflexivity. Qed.

(** C2. A table with at least one row and resolved bounds [lo <= hi]: the
    keys [crop] keeps are the keys [k] of the table with [lo <= k <= hi], in
    the table's order ([filter] keeps order and multiplicity), every column
    is cut to the same rows, and [crop] returns exactly when some key is
    kept. *)
Theorem crop_keeps_closed_interval table tmin tmax by_ lo hi :
  resolve_bounds table tmin tmax by_ = Some (lo, hi) ->
  (lo <= hi)%Qc ->
  let kept := filter (in_range lo hi) (index table) in
  (forall k, In k kept
             <-> In k (index table) /\ (lo <= Z2f k)%Qc /\ (Z2f k <= hi)%Qc)
  /\ match preprocess.crop table tmin tmax by_ with
     | Ok out =>
         index out = kept /\ kept <> []
         /\ out = select_rows (map (in_range lo hi) (index table)) table
     | Raise e => e = EmptyResult /\ kept = []
     end.
Proof.
  intros Hb Hle kept. split.
  - intros k. unfold kept. rewrite filter_In, in_range_iff. reflexivity.
  - rewrite (crop_run _ _ _ _ _ _ Hb), (not_flt_of_le _ _ Hle).
    unfold kept. destruct (filter (in_range lo hi) (index table)) eqn:F; [tauto |].
    cbn [select_rows index]. rewrite select_filter, F.
    split; [reflexivity | split; [discriminate | reflexivity]].
Qed.

Lemma Z2f_le_5_15 : (Z2f 5 <= Z2f 15)%Qc.
Proof. unfold Qcle, Qle. cbn. lia. Qed.

Lemma crop_keeps_closed_interval_witness :
  resolve_bounds example_table (Some (Z2f 5)) (Some (Z2f 15)) by_timestamp
  = Some (Z2f 5, Z2f 15)
  /\ (Z2f 5 <= Z2f 15)%Qc
  /\ (forall k, In k (filter (in_range (Z2f 5) (Z2f 15)) (index example_table))
                <-> In k (index example_table)
                    /\ (Z2f 5 <= Z2f k)%Qc /\ (Z2f k <= Z2f 15)%Qc)
  /\ match preprocess.crop example_table (Some (Z2f 5)) (Some (Z2f 15))
             by_timestamp with
     | Ok out =>
         index out = filter (in_range (Z2f 5) (Z2f 15)) (index example_table)
         /\ filter (in_range (Z2f 5) (Z2f 15)) (index example_table) <> []
         /\ out = select_rows (map (in_range (Z2f 5) (Z2f 15))
                                  (index example_table)) example_table
     | Raise e =>
         e = EmptyResult
         /\ filter (in_range (Z2f 5) (Z2f 15)) (index example_table) = []
     end.
Proof.
  assert (H1 : resolve_bounds example_table (Some (Z2f 5)) (Some (Z2f 15))
                 by_timestamp = Some (Z2f 5, Z2f 15)) by reflexivity.
  split; [exact H1 |]. split; [exact Z2f_le_5_15 |].
  exact (crop_keeps_closed_interval example_table _ _ _ _ _ H1 Z2f_le_5_15).
Defined.

(** C5. A table with at least one row: [crop] raises InvalidRange when the
    resolved [tmin] exceeds the resolved [tmax], and raises EmptyResult,
    returning no table, when the bounds are in order and no key lies in
    between; so it does for [tmin=100, tmax=200] on any table whose keys
    stay at or below 20. *)
Theorem crop_errors table tmin tmax by_ lo hi :
  resolve_bounds table tmin tmax by_ = Some (lo, hi) ->
  ((hi < lo)%Qc -> preprocess.crop table tmin tmax by_ = Raise InvalidRange)
  /\ ((lo <= hi)%Qc ->
      (forall k, In k (index table) ->
                 ~ ((lo <= Z2f k)%Qc /\ (Z2f k <= hi)%Qc)) ->
      preprocess.crop table tmin tmax by_ = Raise EmptyResult)
  /\ (Forall (fun k => k <= 20) (index table) ->
      preprocess.crop table (Some (Z2f 100)) (Some (Z2f 200)) by_timestamp
      = Raise EmptyResult).
Proof.
  intros Hb.
  assert (Hempty : forall a b,
    resolve_bounds table a b by_timestamp <> None ->
    (forall lo' hi', resolve_bounds table a b by_timestamp = Some (lo', hi') ->
       (lo' <= hi')%Qc /\
       forall k, In k (index table) ->
                 ~ ((lo' <= Z2f k)%Qc /\ (Z2f k <= hi')%Qc)) ->
    preprocess.crop table a b by_timestamp = Raise EmptyResult).
  { intros a b Hsome Hall.
    destruct (resolve_bounds table a b by_timestamp) as [[lo' hi'] |] eqn:E;
      [| contradiction].
    destruct (Hall lo' hi' eq_refl) as [Hle Hnone].
    rewrite (crop_run _ _ _ _ _ _ E), (not_flt_of_le _ _ Hle).
    destruct (filter (in_range lo' hi') (index table)) as [| k l] eqn:F;
      [reflexivity |].
    exfalso. assert (Hin : In k (filter (in_range lo' hi') (index table)))
      by (rewrite F; left; reflexivity).
    apply filter_In in Hin. destruct Hin as [Hin Hr].
    apply (Hnone k Hin). apply in_range_iff. exact Hr. }
  split; [| split].
  - intros Hlt. rewrite (crop_run _ _ _ _ _ _ Hb).
    apply flt_iff in Hlt. rewrite Hlt. reflexivity.
  - intros Hle Hnone. rewrite (crop_run _ _ _ _ _ _ Hb), (not_flt_of_le _ _ Hle).
    destruct (filter (in_range lo hi) (index table)) as [| k l] eqn:F;
      [reflexivity |].
    exfalso. assert (Hin : In k (filter (in_range lo hi) (index table)))
      by (rewrite F; left; reflexivity).
    apply filter_In in Hin. destruct Hin as [Hin Hr].
    apply (Hnone k Hin). apply in_range_iff. exact Hr.
  - intros Hmax. unfold resolve_bounds in Hb.
    destruct (index table) as [| first rest] eqn:Ei; [discriminate |].
    apply Hempty.
    + unfold resolve_bounds. rewrite Ei. discriminate.
    + intros lo' hi' E. unfold resolve_bounds in E. rewrite Ei in E.
      cbn [resolve] in E. injection E as <- <-. split.
      * unfold Qcle, Qle. cbn. lia.
      * intros k Hin [Hlo _].
        rewrite Forall_forall in Hmax. specialize (Hmax k Hin).
        to_Q. rewrite <- Zle_Qle in Hlo. lia.
Qed.

Lemma crop_errors_witness :
  resolve_bounds example_table (Some (Z2f 100)) (Some (Z2f 200)) by_timestamp
  = Some (Z2f 100, Z2f 200)
  /\ Forall (fun k => k <= 20) (index example_table)
  /\ preprocess.crop example_table (Some (Z2f 100)) (Some (Z2f 200))
       by_timestamp = Raise EmptyResult
  /\ resolve_bounds example_table (Some (Z2f 15)) (Some (Z2f 5)) by_timestamp
     = Some (Z2f 15, Z2f 5)
  /\ (Z2f 5 < Z2f 15)%Qc
  /\ preprocess.crop example_table (Some (Z2f 15)) (Some (Z2f 5))
       by_timestamp = Raise InvalidRange.
Proof.
  assert (H : resolve_bounds example_table (Some (Z2f 100)) (Some (Z2f 200))
                by_timestamp = Some (Z2f 100, Z2f 200)) by reflexivity.
  assert (Hmax : Forall (fun k => k <= 20) (index example_table))
    by (repeat constructor; cbn; lia).
  assert (H' : resolve_bounds example_table (Some (Z2f 15)) (Some (Z2f 5))
                 by_timestamp = Some (Z2f 15, Z2f 5)) by reflexivity.
  assert (Hlt : (Z2f 5 < Z2f 15)%Qc) by reflexivity.
  split; [exact H |]. split; [exact Hmax |].
  split; [exact (proj2 (proj2 (crop_errors example_table _ _ _ _ _ H)) Hmax) |].
  split; [exact H' |]. split; [exact Hlt |].
  exact (proj1 (crop_errors example_table _ _ _ _ _ H') Hlt).
Defined.


Lemma elapsed_first k : elapsed k k = 0%Qc.
Proof.
  unfold elapsed, sub64. rewrite Z.sub_diag.
  change (wrap64 0) with 0. rewrite Z2f_0. unfold Qcdiv. ring.
Qed.

Lemma elapsed_exact first t :
  - 2 ^ 63 <= t - first < 2 ^ 63 -> elapsed first t = (Z2f (t - first) / f1e9)%Qc.
Proof. intros H. unfold elapsed, sub64. rewrite wrap64_small by exact H. reflexivity. Qed.



(** ** Resampling *)








































(** ** Derived attributes *)

Lemma get_attributes_unfold (s : NeonStream) :
  _get_attributes s =
  let a := index (data s) in
  let s1 := set_ts a (set_timestamps a s) in
  match getitem a 0 with
  | Raise e => (s1, Raise e)
  | Ok x =>
      match getitem a (-1) with
      | Raise e => (set_first_ts x s1, Raise e)
      | Ok y =>
          let tm := map (elapsed x) a in
          let s2 := set_times tm (set_last_ts y (set_first_ts x s1)) in
          let s3 := set_data (setitem "time [s]" (FloatCol tm) (data s)) s2 in
          let dur := (elapsed x y - elapsed x x)%Qc in
          match truediv (Z2f (shape0 (data s))) dur with
          | Raise e => (set_duration dur s3, Raise e)
          | Ok q => (set_sampling_freq_effective q (set_duration dur s3), Ok tt)
          end
      end
  end.
Proof.
  unfold _get_attributes, bind, attr, assign, lift. cbn.
  destruct (getitem (index (data s)) 0) as [x | e] eqn:E0; [| reflexivity].
  destruct (getitem (index (data s)) (-1)) as [y | e] eqn:E1; [| reflexivity].
  cbn. rewrite !getitem_map, E0, E1. cbn.
  destruct (truediv _ _); reflexivity.
Qed.

(** What a run of [_get_attributes] that returns has assigned. *)
Lemma get_attributes_ok (s s' : NeonStream) (u : unit) :
  _get_attributes s = (s', Ok u) ->
  exists first rest,
    index (data s) = first :: rest
    /\ let a := first :: rest in
       let last_ := last a first in
       let dur := (elapsed first last_ - elapsed first first)%Qc in
       dur <> 0%Qc
       /\ s' = mkNeonStream
                 (setitem "time [s]" (FloatCol (map (elapsed first) a)) (data s))
                 a a first last_ (map (elapsed first) a) dur
                 (Z2f (shape0 (data s)) / dur)%Qc (sampling_freq_nominal s).
Proof.
  rewrite get_attributes_unfold. cbv zeta.
  destruct (index (data s)) as [| first rest] eqn:Ei.
  { rewrite getitem_empty. discriminate. }
  rewrite getitem_head, getitem_last.
  set (dur := (elapsed first (last (first :: rest) first) - elapsed first first)%Qc).
  unfold truediv. destruct (Qc_eq_bool dur 0) eqn:E.
  { discriminate. }
  intros H. injection H as <-. exists first, rest. split; [reflexivity |].
  cbv zeta. fold dur. split; [| reflexivity].
  intros C. rewrite C in E. unfold Qc_eq_bool in E.
  destruct (Qc_eq_dec 0 0); [discriminate | contradiction].
Qed.

Lemma get_attributes_fresh (s s' : NeonStream) (u : unit) :
  _get_attributes s = (s', Ok u) ->
  attributes_of_table (data s') = Some (attributes_of_stream s')
  /\ ts s' = timestamps s'
  /\ data s' = setitem "time [s]" (FloatCol (times s')) (data s)
  /\ sampling_freq_nominal s' = sampling_freq_nominal s.
Proof.
  intros H. destruct (get_attributes_ok s s' u H) as (first & rest & Ei & Hd & ->).
  cbn [data ts timestamps times sampling_freq_nominal]. repeat split.
  unfold attributes_of_table, attributes_of_stream, shape0.
  cbn [data setitem index timestamps first_ts last_ts times duration
       sampling_freq_effective].
  rewrite Ei.
  destruct (Qc_eq_bool _ _) eqn:E; [| reflexivity].
  apply Qc_eq_bool_correct in E. contradiction.
Qed.

Lemma nominal_grid_state (s : NeonStream) : fst (nominal_grid s) = s.
Proof.
  unfold nominal_grid, bind, attr, lift, assert, ret.
  destruct (sampling_freq_nominal s) as [f |]; [| reflexivity].
  destruct (truediv f1e9 (Z2f f)); [| reflexivity].
  destruct (arange _ _ _) as [g |]; [| reflexivity].
  destruct (getitem g 0); [| reflexivity].
  destruct (_ =? _); [| reflexivity].
  destruct (forallb _ _); reflexivity.
Qed.

Lemma target_timestamps_state new_ts (s : NeonStream) :
  fst (target_timestamps new_ts s) = s.
Proof. destruct new_ts; [reflexivity | apply nominal_grid_state]. Qed.

Lemma crop_inplace_ok tmin tmax by_ (s s' : NeonStream) r :
  stream.crop tmin tmax by_ true s = (s', Ok r) ->
  exists new_data,
    preprocess.crop (data s) tmin tmax by_ = Ok new_data
    /\ _get_attributes (set_data new_data s) = (s', Ok tt)
    /\ r = data s'.
Proof.
  unfold stream.crop, bind, attr, lift, assign.
  destruct (preprocess.crop (data s) tmin tmax by_) as [new_data |]; [| discriminate].
  destruct (_get_attributes (set_data new_data s)) as [s1 [[] | e]] eqn:E;
    [| discriminate].
  intros H. injection H as <- <-. eauto.
Qed.

Lemma interpolate_inplace_ok new_ts fk ok (s s' : NeonStream) r :
  stream.interpolate new_ts fk ok true s = (s', Ok r) ->
  exists grid new_data,
    target_timestamps new_ts s = (s, Ok grid)
    /\ preprocess.interpolate grid (data s) fk ok = Ok new_data
    /\ _get_attributes (set_data new_data s) = (s', Ok tt)
    /\ r = data s'.
Proof.
  unfold stream.interpolate, bind at 1.
  pose proof (target_timestamps_state new_ts s) as Hst.
  destruct (target_timestamps new_ts s) as [s0 [grid | e]] eqn:Et; [| discriminate].
  cbn in Hst. subst s0.
  unfold bind, attr, lift, assign.
  destruct (preprocess.interpolate grid (data s) fk ok) as [new_data |] eqn:Ep;
    [| discriminate].
  destruct (_get_attributes (set_data new_data s)) as [s1 [[] | e]] eqn:E;
    [| discriminate].
  intros H. injection H as <- <-. exists grid, new_data. auto.
Qed.



(** A run of [_get_attributes] on a table whose first and last key agree:
    everything up to [duration] is assigned, then the division raises. *)
Lemma get_attributes_zero_duration (s : NeonStream) (k : Z) :
  getitem (index (data s)) 0 = Ok k ->
  getitem (index (data s)) (-1) = Ok k ->
  exists s',
    _get_attributes s = (s', Raise ZeroDivisionError)
    /\ data s' = setitem "time [s]" (FloatCol (times s')) (data s)
    /\ timestamps s' = index (data s)
    /\ first_ts s' = k /\ last_ts s' = k /\ duration s' = 0%Qc
    /\ sampling_freq_effective s' = sampling_freq_effective s.
Proof.
  intros H0 H1. rewrite get_attributes_unfold. cbv zeta. rewrite H0, H1.
  replace (elapsed k k - elapsed k k)%Qc with 0%Qc by ring.
  rewrite truediv_by_zero. eexists. split; [reflexivity |].
  cbn. repeat split.
Qed.

(** C9. A table whose first and last key agree, as in every table of one
    row: [_get_attributes] divides the row count by a zero duration and
    raises ZeroDivisionError; so does every constructor given that table;
    and when [preprocess.crop] or [preprocess.interpolate] returns such a
    table, the call with [inplace=False] returns it while the call with
    [inplace=True] raises, after the table was replaced and with
    [sampling_freq_effective] left as it was. *)
Theorem zero_duration_raises (d : DataFrame) (k : Z) :
  getitem (index d) 0 = Ok k ->
  getitem (index d) (-1) = Ok k ->
  (forall s, data s = d -> snd (_get_attributes s) = Raise ZeroDivisionError)
  /\ (forall c, init c d = Raise ZeroDivisionError)
  /\ (forall s tmin tmax by_,
        preprocess.crop (data s) tmin tmax by_ = Ok d ->
        stream.crop tmin tmax by_ false s = (s, Ok d)
        /\ exists s',
             stream.crop tmin tmax by_ true s = (s', Raise ZeroDivisionError)
             /\ index (data s') = index d
             /\ first_ts s' = k /\ last_ts s' = k /\ duration s' = 0%Qc
             /\ sampling_freq_effective s' = sampling_freq_effective s)
  /\ (forall s new_ts grid fk ok,
        target_timestamps new_ts s = (s, Ok grid) ->
        preprocess.interpolate grid (data s) fk ok = Ok d ->
        stream.interpolate new_ts fk ok false s = (s, Ok d)
        /\ exists s',
             stream.interpolate new_ts fk ok true s
             = (s', Raise ZeroDivisionError)
             /\ index (data s') = index d
             /\ sampling_freq_effective s' = sampling_freq_effective s).
Proof.
  intros H0 H1. split; [| split; [| split]].
  - intros s <-.
    destruct (get_attributes_zero_duration s k H0 H1) as (s' & -> & _).
    reflexivity.
  - intros c. unfold init.
    destruct c.
    1-3: destruct (get_attributes_zero_duration (fresh_object d) k H0 H1)
           as (s' & -> & _); reflexivity.
    destruct (get_attributes_zero_duration
                (set_sampling_freq_nominal None (fresh_object d)) k H0 H1)
      as (s' & -> & _); reflexivity.
  - intros s tmin tmax by_ Hc. unfold stream.crop, bind, attr, lift, assign, ret.
    rewrite Hc. split; [reflexivity |].
    destruct (get_attributes_zero_duration (set_data d s) k H0 H1)
      as (s' & -> & Hd & _ & Hf & Hl & Hdur & Hsfe).
    exists s'. split; [reflexivity |]. rewrite Hd. auto.
  - intros s new_ts grid fk ok Ht Hp.
    assert (Hrun : forall inplace,
      stream.interpolate new_ts fk ok inplace s
      = if inplace
        then bind (assign (set_data d))
               (fun _ => bind _get_attributes (fun _ => attr data)) s
        else (s, Ok d)).
    { intros inplace. unfold stream.interpolate, bind at 1. rewrite Ht.
      unfold bind at 1, attr at 1. unfold bind at 1, lift. rewrite Hp.
      destruct inplace; reflexivity. }
    rewrite !Hrun. split; [reflexivity |].
    unfold bind, assign, attr.
    destruct (get_attributes_zero_duration (set_data d s) k H0 H1)
      as (s' & -> & Hd & _ & _ & _ & _ & Hsfe).
    exists s'. split; [reflexivity |]. rewrite Hd. auto.
Qed.

Lemma zero_duration_raises_witness :
  getitem (index single_row_table) 0 = Ok 10
  /\ getitem (index single_row_table) (-1) = Ok 10
  /\ preprocess.crop (data custom_stream) (Some (Z2f 5)) (Some (Z2f 15))
       by_timestamp = Ok single_row_table
  /\ init CustomStream single_row_table = Raise ZeroDivisionError
  /\ stream.crop (Some (Z2f 5)) (Some (Z2f 15)) by_timestamp false
       custom_stream = (custom_stream, Ok single_row_table)
  /\ exists s',
       stream.crop (Some (Z2f 5)) (Some (Z2f 15)) by_timestamp true
         custom_stream = (s', Raise ZeroDivisionError)
       /\ index (data s') = index single_row_table
       /\ first_ts s' = 10 /\ last_ts s' = 10 /\ duration s' = 0%Qc
       /\ sampling_freq_effective s' = sampling_freq_effective custom_stream.
Proof.
  assert (H0 : getitem (index single_row_table) 0 = Ok 10) by reflexivity.
  assert (H1 : getitem (index single_row_table) (-1) = Ok 10) by reflexivity.
  assert (Hc : preprocess.crop (data custom_stream) (Some (Z2f 5))
                 (Some (Z2f 15)) by_timestamp = Ok single_row_table)
    by (vm_compute; reflexivity).
  split; [exact H0 |]. split; [exact H1 |]. split; [exact Hc |].
  destruct (zero_duration_raises single_row_table 10 H0 H1)
    as (_ & Hinit & Hcrop & _).
  split; [exact (Hinit CustomStream) |].
  exact (Hcrop custom_stream (Some (Z2f 5)) (Some (Z2f 15)) by_timestamp Hc).
Defined.

Lemma installs_get_attributes (d : DataFrame) (s' : NeonStream) :
  installs d s' ->
  exists s0 s1,
    data s0 = d
    /\ _get_attributes s0 = (s1, Ok tt)
    /\ data s' = data s1 /\ times s' = times s1 /\ first_ts s' = first_ts s1.
Proof.
  intros H. destruct H as [c d s' Hi | s tmin tmax by_ new_data r s' Hc Hr
                          | s new_ts grid fk ok new_data r s' Ht Hp Hr].
  - unfold init in Hi. destruct c.
    1-3: destruct (_get_attributes (fresh_object d)) as [s1 [[] | e]] eqn:E;
         [| discriminate]; injection Hi as <-;
         exists (fresh_object d), s1; auto.
    destruct (_get_attributes (set_sampling_freq_nominal None (fresh_object d)))
      as [s1 [[] | e]] eqn:E; [| discriminate].
    injection Hi as <-. 
    exists (set_sampling_freq_nominal None (fresh_object d)), s1. auto.
  - destruct (crop_inplace_ok _ _ _ _ _ _ Hr) as (nd & Hc' & Hg & _).
    rewrite Hc in Hc'. injection Hc' as <-.
    exists (set_data new_data s), s'. auto.
  - destruct (interpolate_inplace_ok _ _ _ _ _ _ Hr) as (g & nd & Ht' & Hp' & Hg & _).
    rewrite Ht in Ht'. injection Ht' as <-.
    rewrite Hp in Hp'. injection Hp' as <-.
    exists (set_data new_data s), s'. auto.
Qed.

Lemma getcol_setcol name c cols : getcol name (setcol name c cols) = Some c.
Proof.
  induction cols as [| [n c0] cols IH]; cbn.
  - rewrite String.eqb_refl. reflexivity.
  - destruct (String.eqb n name) eqn:E; cbn; rewrite E; [reflexivity | exact IH].
Qed.

(** C10. After a constructor, and after [crop] or [interpolate] with
    [inplace=True], returned: the owned table is the table that was
    installed with the column ["time [s]"] written into it; the entry of
    that column in a row is [(timestamp - first_ts) / 1e9] as [int64]
    subtraction and float division compute it, which is the exact quotient
    for every row whose timestamp is within [int64] of the first; [first_ts]
    is the first key of the owned table, and the first entry is 0. *)
Theorem time_column_written (d : DataFrame) (s' : NeonStream) :
  installs d s' ->
  data s' = setitem "time [s]" (FloatCol (times s')) d
  /\ getcol "time [s]" (columns (data s'))
     = Some (FloatCol (map (elapsed (first_ts s')) (index (data s'))))
  /\ (forall t, - 2 ^ 63 <= t - first_ts s' < 2 ^ 63 ->
                elapsed (first_ts s') t = (Z2f (t - first_ts s') / f1e9)%Qc)
  /\ hd_error (index (data s')) = Some (first_ts s')
  /\ exists rest, times s' = 0%Qc :: rest.
Proof.
  intros Hi.
  destruct (installs_get_attributes d s' Hi) as (s0 & s1 & <- & Hg & Hd & Ht & Hf).
  destruct (get_attributes_ok s0 s1 tt Hg) as (first & rest & Ei & _ & Hs1).
  cbv zeta in Hs1. rewrite Hd, Ht, Hf in *. subst s1.
  cbn [data times first_ts setitem index columns] in *.
  split; [reflexivity |]. split; [| split; [| split]].
  - rewrite getcol_setcol, Ei. reflexivity.
  - intros t Hfit. apply elapsed_exact, Hfit.
  - rewrite Ei. reflexivity.
  - exists (map (elapsed first) rest). cbn [map]. rewrite elapsed_first. reflexivity.
Qed.

Lemma time_column_written_witness :
  installs example_table custom_stream
  /\ data custom_stream
     = setitem "time [s]" (FloatCol (times custom_stream)) example_table
  /\ getcol "time [s]" (columns (data custom_stream))
     = Some (FloatCol (map (elapsed (first_ts custom_stream))
                           (index (data custom_stream))))
  /\ (forall t, - 2 ^ 63 <= t - first_ts custom_stream < 2 ^ 63 ->
                elapsed (first_ts custom_stream) t
                = (Z2f (t - first_ts custom_stream) / f1e9)%Qc)
  /\ hd_error (index (data custom_stream)) = Some (first_ts custom_stream)
  /\ exists rest, times custom_stream = 0%Qc :: rest.
Proof.
  assert (H1 : installs example_table custom_stream)
    by (apply (installs_init CustomStream); vm_compute; reflexivity).
  split; [exact H1 |].
  exact (time_column_written example_table custom_stream H1).
Defined.

(** ** The object across calls *)

Lemma get_attributes_cases (s : NeonStream) :
  _get_attributes s =
  match index (data s) with
  | [] => (set_ts [] (set_timestamps [] s), Raise IndexError)
  | first :: rest =>
      let a := first :: rest in
      let last_ := last a first in
      let tm := map (elapsed first) a in
      let dur := (elapsed first last_ - elapsed first first)%Qc in
      let s3 := mkNeonStream (setitem "time [s]" (FloatCol tm) (data s))
                  a a first last_ tm dur (sampling_freq_effective s)
                  (sampling_freq_nominal s) in
      if Qc_eq_bool dur 0%Qc then (s3, Raise ZeroDivisionError)
      else (set_sampling_freq_effective (Z2f (shape0 (data s)) / dur)%Qc s3,
            Ok tt)
  end.
Proof.
  rewrite get_attributes_unfold. cbv zeta.
  destruct (index (data s)) as [| first rest] eqn:Ei.
  - rewrite getitem_empty. reflexivity.
  - rewrite getitem_head, getitem_last. unfold truediv.
    destruct (Qc_eq_bool _ _); reflexivity.
Qed.

Lemma crop_copy_state (s : NeonStream) tmin tmax by_ :
  fst (stream.crop tmin tmax by_ false s) = s.
Proof.
  unfold stream.crop, bind, attr, lift, ret.
  destruct (preprocess.crop _ _ _ _); reflexivity.
Qed.

Lemma interpolate_copy_state (s : NeonStream) new_ts fk ok :
  fst (stream.interpolate new_ts fk ok false s) = s.
Proof.
  unfold stream.interpolate, bind at 1.
  pose proof (target_timestamps_state new_ts s) as Hst.
  destruct (target_timestamps new_ts s) as [s0 [grid | e]]; cbn in Hst; subst s0;
    [| reflexivity].
  unfold bind, attr, lift, ret.
  destruct (preprocess.interpolate _ _ _ _); reflexivity.
Qed.

(** X1. [crop] and [interpolate] called with [inplace=False] assign no
    attribute of the stream, whether they return a table or raise: the
    object afterwards is the object before. *)
Theorem copying_call_assigns_nothing (c : call) (s : NeonStream) :
  fst (copy c s) = s.
Proof.
  destruct c; [apply crop_copy_state | apply interpolate_copy_state].
Qed.

Lemma get_attributes_nominal (s : NeonStream) :
  sampling_freq_nominal (fst (_get_attributes s)) = sampling_freq_nominal s.
Proof.
  rewrite get_attributes_cases.
  destruct (index (data s)); [reflexivity |].
  cbv zeta. destruct (Qc_eq_bool _ _); reflexivity.
Qed.

(** X2. No method of [NeonStream] assigns [sampling_freq_nominal]:
    [_get_attributes], [crop] and [interpolate] leave it as the constructor
    set it, in place or not, whether they return or raise. *)
Theorem nominal_frequency_kept (s : NeonStream) :
  sampling_freq_nominal (fst (_get_attributes s)) = sampling_freq_nominal s
  /\ (forall tmin tmax by_ inplace,
        sampling_freq_nominal (fst (stream.crop tmin tmax by_ inplace s))
        = sampling_freq_nominal s)
  /\ (forall new_ts fk ok inplace,
        sampling_freq_nominal (fst (stream.interpolate new_ts fk ok inplace s))
        = sampling_freq_nominal s).
Proof.
  split; [apply get_attributes_nominal |]. split.
  - intros tmin tmax by_ [|].
    + unfold stream.crop, bind, attr, lift, assign.
      destruct (preprocess.crop _ _ _ _) as [new_data |]; [| reflexivity].
      pose proof (get_attributes_nominal (set_data new_data s)) as H.
      destruct (_get_attributes (set_data new_data s)) as [s1 [[] | e]];
        exact H.
    + rewrite crop_copy_state. reflexivity.
  - intros new_ts fk ok [|].
    + unfold stream.interpolate, bind at 1.
      pose proof (target_timestamps_state new_ts s) as Hst.
      destruct (target_timestamps new_ts s) as [s0 [grid | e]]; cbn in Hst; subst s0;
        [| reflexivity].
      unfold bind, attr, lift, assign.
      destruct (preprocess.interpolate _ _ _ _) as [new_data |]; [| reflexivity].
      pose proof (get_attributes_nominal (set_data new_data s)) as H.
      destruct (_get_attributes (set_data new_data s)) as [s1 [[] | e]];
        exact H.
    + rewrite interpolate_copy_state. reflexivity.
Qed.

Lemma attributes_of_table_setitem name c d :
  attributes_of_table (setitem name c d) = attributes_of_table d.
Proof. reflexivity. Qed.



(** X4. [interpolate(..., inplace=True)] whose resampled table has no row
    raises IndexError in [_get_attributes] after [self.data] has been
    replaced: the stream is left with the empty table, empty [timestamps]
    and [ts], and the other attributes of the table it had before. *)
Theorem empty_replacement_raises (s : NeonStream) (new_ts : option (list Z))
    (grid : list Z) (fk : float_kind) (ok : other_kind) (d : DataFrame) :
  target_timestamps new_ts s = (s, Ok grid) ->
  preprocess.interpolate grid (data s) fk ok = Ok d ->
  index d = [] ->
  stream.interpolate new_ts fk ok true s
  = (set_ts [] (set_timestamps [] (set_data d s)), Raise IndexError).
Proof.
  intros Ht Hp Hi. unfold stream.interpolate, bind at 1. rewrite Ht.
  unfold bind at 1, attr at 1. unfold bind at 1, lift. rewrite Hp.
  unfold bind at 1, assign. unfold bind at 1.
  rewrite get_attributes_cases. cbn [data set_data]. rewrite Hi. reflexivity.
Qed.

Lemma empty_replacement_raises_witness :
  target_timestamps (Some []) custom_stream = (custom_stream, Ok [])
  /\ preprocess.interpolate [] (data custom_stream) linear nearest_neighbour
     = Ok empty_resampled
  /\ index empty_resampled = []
  /\ stream.interpolate (Some []) linear nearest_neighbour true custom_stream
     = (set_ts [] (set_timestamps [] (set_data empty_resampled custom_stream)),
        Raise IndexError).
Proof.
  assert (H1 : target_timestamps (Some []) custom_stream
               = (custom_stream, Ok [])) by reflexivity.
  assert (H2 : preprocess.interpolate [] (data custom_stream) linear
                 nearest_neighbour = Ok empty_resampled)
    by (vm_compute; reflexivity).
  assert (H3 : index empty_resampled = []) by (vm_compute; reflexivity).
  split; [exact H1 |]. split; [exact H2 |]. split; [exact H3 |].
  exact (empty_replacement_raises custom_stream (Some []) [] linear
           nearest_neighbour empty_resampled H1 H2 H3).
Defined.

Lemma setcol_idempotent name c cols :
  setcol name c (setcol name c cols) = setcol name c cols.
Proof.
  induction cols as [| [n c0] cols IH]; cbn.
  - rewrite String.eqb_refl. reflexivity.
  - destruct (String.eqb n name) eqn:E; cbn; rewrite E; [reflexivity |].
    rewrite IH. reflexivity.
Qed.

(** X5. [_get_attributes] is idempotent: called again on the object a
    successful call left, it returns and changes nothing, the [time [s]]
    column included. *)
Theorem get_attributes_idempotent (s s' : NeonStream) (u : unit) :
  _get_attributes s = (s', Ok u) ->
  _get_attributes s' = (s', Ok tt).
Proof.
  intros H. destruct (get_attributes_ok s s' u H) as (first & rest & Ei & Hd & ->).
  cbv zeta in Hd. rewrite get_attributes_cases.
  cbn [data setitem index]. rewrite Ei. cbv zeta.
  destruct (Qc_eq_bool _ _) eqn:E.
  { apply Qc_eq_bool_correct in E. contradiction. }
  unfold set_sampling_freq_effective, setitem, shape0.
  cbn [data index columns timestamps ts first_ts last_ts times duration
       sampling_freq_effective sampling_freq_nominal].
  rewrite setcol_idempotent, Ei. reflexivity.
Qed.

Lemma get_attributes_idempotent_witness :
  _get_attributes (fresh_object example_table) = (custom_stream, Ok tt)
  /\ _get_attributes custom_stream = (custom_stream, Ok tt).
Proof.
  assert (H : _get_attributes (fresh_object example_table)
              = (custom_stream, Ok tt)) by (vm_compute; reflexivity).
  split; [exact H |].
  exact (get_attributes_idempotent (fresh_object example_table) custom_stream
           tt H).
Defined.

Lemma getcol_setcol_other name n c cols :
  n <> name -> getcol n (setcol name c cols) = getcol n cols.
Proof.
  intros Hne. induction cols as [| [m c0] cols IH]; cbn.
  - destruct (String.eqb_spec name n); [congruence | reflexivity].
  - destruct (String.eqb_spec m name) as [-> | Hm]; cbn.
    + destruct (String.eqb_spec name n); [congruence | reflexivity].
    + destruct (String.eqb m n); [reflexivity | exact IH].
Qed.

Lemma setcol_names name c cols :
  map fst (setcol name c cols)
  = match getcol name cols with
    | Some _ => map fst cols
    | None => map fst cols ++ [name]
    end.
Proof.
  induction cols as [| [m c0] cols IH]; cbn; [reflexivity |].
  destruct (String.eqb m name) eqn:E; cbn; [reflexivity |].
  rewrite IH. destruct (getcol name cols); reflexivity.
Qed.

(** X6. [_get_attributes] touches one column only.  The index is kept,
    every column other than [time [s]] is kept, and on a table with rows the
    column names are the old ones, with [time [s]] added last when the table
    did not have it. *)
Theorem get_attributes_keeps_columns (s : NeonStream) :
  let s' := fst (_get_attributes s) in
  index (data s') = index (data s)
  /\ (forall n, n <> "time [s]"%string ->
                getcol n (columns (data s')) = getcol n (columns (data s)))
  /\ (index (data s) <> [] ->
      map fst (columns (data s'))
      = match getcol "time [s]" (columns (data s)) with
        | Some _ => map fst (columns (data s))
        | None => map fst (columns (data s)) ++ ["time [s]"%string]
        end).
Proof.
  cbv zeta. rewrite get_attributes_cases.
  destruct (index (data s)) as [| first rest] eqn:Ei.
  - cbn. rewrite Ei. split; [reflexivity |]. split; [reflexivity | congruence].
  - cbv zeta. destruct (Qc_eq_bool _ _); cbn [fst data setitem index columns
      set_sampling_freq_effective]; rewrite Ei;
      (split; [reflexivity |]; split;
       [intros n Hn; apply getcol_setcol_other; exact Hn
       | intros _; apply setcol_names]).
Qed.

Lemma arange_count start stop step :
  0 < step -> start < stop ->
  arange start stop step
  = Ok (map (fun i => start + Z.of_nat i * step)
            (seq 0 (S (Z.to_nat ((stop - start - 1) / step))))).
Proof.
  intros Hstep Hlt. unfold arange.
  destruct (Z.eqb_spec step 0) as [E | _]; [lia |].
  do 3 f_equal.
  assert (Hq : - (- (stop - start) / step) = (stop - start - 1) / step + 1).
  { pose proof (Z.div_mod (- (stop - start)) step ltac:(lia)) as H1.
    pose proof (Z.mod_pos_bound (- (stop - start)) step Hstep) as H2.
    pose proof (Z.div_mod (stop - start - 1) step ltac:(lia)) as H3.
    pose proof (Z.mod_pos_bound (stop - start - 1) step Hstep) as H4.
    nia. }
  rewrite Hq.
  assert (0 <= (stop - start - 1) / step) by (apply Z.div_pos; lia).
  rewrite Z.max_r by lia.
  rewrite Z2Nat.inj_add by lia. rewrite Nat.add_comm. reflexivity.
Qed.

(** X7. The default grid of [interpolate], for a nominal frequency [f]
    between 1 Hz and 1e9 Hz and [first_ts < last_ts], with
    [step = int(1e9 / f)]: it has [(last_ts - first_ts - 1) // step + 1]
    points, all in the half-open range from [first_ts] to [last_ts], and
    its last point is less than one step before [last_ts]; the last sample
    of the stream is never a grid point. *)
Theorem nominal_grid_covers (s : NeonStream) (f : Z) :
  sampling_freq_nominal s = Some f ->
  1 <= f <= 1000000000 ->
  first_ts s < last_ts s ->
  let step := 1000000000 / f in
  exists new_ts,
    nominal_grid s = (s, Ok new_ts)
    /\ Z.of_nat (length new_ts) = (last_ts s - first_ts s - 1) / step + 1
    /\ Forall (fun t => first_ts s <= t < last_ts s) new_ts
    /\ last_ts s <= last new_ts (first_ts s) + step.
Proof.
  intros Hs Hf Hlt step.
  assert (Hint : int (f1e9 / Z2f f)%Qc = step) by (apply int_truediv_1e9; lia).
  assert (Hstep : 0 < step < 2 ^ 63).
  { unfold step. split.
    - apply Z.div_str_pos. lia.
    - apply Z.le_lt_trans with 1000000000; [| reflexivity].
      apply Z.div_le_upper_bound; nia. }
  set (n := Z.to_nat ((last_ts s - first_ts s - 1) / step)).
  assert (Hq : 0 <= (last_ts s - first_ts s - 1) / step) by (apply Z.div_pos; lia).
  pose proof (Z.div_mod (last_ts s - first_ts s - 1) step ltac:(lia)) as Hdm.
  pose proof (Z.mod_pos_bound (last_ts s - first_ts s - 1) step (proj1 Hstep)) as Hr.
  exists (map (fun i => first_ts s + Z.of_nat i * step) (seq 0 (S n))).
  split; [| split; [| split]].
  - unfold nominal_grid, bind, attr, lift, assert, ret. rewrite Hs.
    rewrite truediv_nonzero by (apply Z2f_nonzero; lia).
    rewrite Hint, (arange_count _ _ _ (proj1 Hstep) Hlt). fold n. cbv beta iota.
    rewrite diff_progression by (apply wrap64_small; lia).
    change (seq 0 (S n)) with (0%nat :: seq 1 n). rewrite map_cons.
    rewrite getitem_head. cbv beta iota.
    replace (first_ts s + Z.of_nat 0 * _) with (first_ts s) by (cbn; lia).
    rewrite Z.eqb_refl. reflexivity.
  - rewrite length_map, length_seq. unfold n. rewrite Nat2Z.inj_succ, Z2Nat.id; lia.
  - apply Forall_forall. intros t Hin. apply in_map_iff in Hin.
    destruct Hin as (i & <- & Hi). apply in_seq in Hi.
    assert (Z.of_nat i <= (last_ts s - first_ts s - 1) / step)
      by (unfold n in Hi; lia).
    nia.
  - rewrite last_progression. unfold n. rewrite Z2Nat.id by lia. nia.
Qed.

Lemma nominal_grid_covers_witness :
  sampling_freq_nominal gaze_stream = Some 200
  /\ 1 <= 200 <= 1000000000
  /\ first_ts gaze_stream < last_ts gaze_stream
  /\ exists new_ts,
       nominal_grid gaze_stream = (gaze_stream, Ok new_ts)
       /\ Z.of_nat (length new_ts)
          = (last_ts gaze_stream - first_ts gaze_stream - 1)
            / (1000000000 / 200) + 1
       /\ Forall (fun t => first_ts gaze_stream <= t < last_ts gaze_stream)
            new_ts
       /\ last_ts gaze_stream
          <= last new_ts (first_ts gaze_stream) + 1000000000 / 200.
Proof.
  assert (H1 : sampling_freq_nominal gaze_stream = Some 200)
    by (vm_compute; reflexivity).
  assert (H2 : 1 <= 200 <= 1000000000) by lia.
  assert (H3 : first_ts gaze_stream < last_ts gaze_stream)
    by (vm_compute; reflexivity).
  split; [exact H1 |]. split; [exact H2 |]. split; [exact H3 |].
  exact (nominal_grid_covers gaze_stream 200 H1 H2 H3).
Defined.

(** X8. On a stream whose last timestamp is not after its first (a table
    stored latest first, say) [interpolate] called without [new_ts] raises
    IndexError: [np.arange] gives no point and the first assertion indexes
    the empty grid.  Nothing is assigned. *)
Theorem nominal_grid_empty_span (s : NeonStream) (f : Z)
    (fk : float_kind) (ok : other_kind) (inplace : bool) :
  sampling_freq_nominal s = Some f ->
  1 <= f <= 1000000000 ->
  last_ts s <= first_ts s ->
  stream.interpolate None fk ok inplace s = (s, Raise IndexError).
Proof.
  intros Hs Hf Hle.
  assert (Hint : int (f1e9 / Z2f f)%Qc = 1000000000 / f)
    by (apply int_truediv_1e9; lia).
  assert (Hstep : 0 < 1000000000 / f) by (apply Z.div_str_pos; lia).
  unfold stream.interpolate, target_timestamps, nominal_grid, bind, attr, lift.
  rewrite Hs. rewrite truediv_nonzero by (apply Z2f_nonzero; lia).
  rewrite Hint. unfold arange.
  destruct (Z.eqb_spec (1000000000 / f) 0) as [E | _]; [lia |].
  assert (Hn : Z.max 0 (- (- (last_ts s - first_ts s) / (1000000000 / f))) = 0).
  { apply Z.max_l.
    assert (0 <= - (last_ts s - first_ts s) / (1000000000 / f))
      by (apply Z.div_pos; lia).
    lia. }
  rewrite Hn. cbn [Z.to_nat seq map]. rewrite getitem_empty. reflexivity.
Qed.

Lemma nominal_grid_empty_span_witness :
  sampling_freq_nominal reversed_stream = Some 200
  /\ 1 <= 200 <= 1000000000
  /\ last_ts reversed_stream <= first_ts reversed_stream
  /\ stream.interpolate None linear nearest_neighbour false reversed_stream
     = (reversed_stream, Raise IndexError).
Proof.
  assert (H1 : sampling_freq_nominal reversed_stream = Some 200)
    by (vm_compute; reflexivity).
  assert (H2 : 1 <= 200 <= 1000000000) by lia.
  assert (H3 : last_ts reversed_stream <= first_ts reversed_stream)
    by (vm_compute; discriminate).
  split; [exact H1 |]. split; [exact H2 |]. split; [exact H3 |].
  exact (nominal_grid_empty_span reversed_stream 200 linear nearest_neighbour
           false H1 H2 H3).
Defined.



(** X10. An in-place [crop] or [interpolate] that returns.  The same call
    with [inplace=False] returns a table [r0]; the in-place call returns the
    table the stream now owns, which is [r0] with the [time [s]] column
    recomputed from its own first timestamp, and the attributes of the
    stream are those of [r0]. *)
Theorem inplace_returns_owned_table (c : call) (s s' : NeonStream)
    (r : DataFrame) :
  mutate c s = (s', Ok r) ->
  exists r0,
    copy c s = (s, Ok r0)
    /\ r = data s'
    /\ data s' = setitem "time [s]" (FloatCol (times s')) r0
    /\ attributes_of_table r0 = Some (attributes_of_stream s').
Proof.
  intros H. destruct c as [tmin tmax by_ | new_ts fk ok]; cbn [mutate copy] in *.
  - destruct (crop_inplace_ok _ _ _ _ _ _ H) as (nd & Hc & Hg & Hr).
    exists nd. split.
    { unfold stream.crop, bind, attr, lift, ret. rewrite Hc. reflexivity. }
    destruct (get_attributes_fresh _ _ _ Hg) as (Ha & _ & Hd & _).
    cbn [data set_data] in Hd. rewrite Hd in Ha at 1.
    rewrite attributes_of_table_setitem in Ha. auto.
  - destruct (interpolate_inplace_ok _ _ _ _ _ _ H)
      as (grid & nd & Ht & Hp & Hg & Hr).
    exists nd. split.
    { unfold stream.interpolate, bind at 1. rewrite Ht.
      unfold bind, attr, lift, ret. rewrite Hp. reflexivity. }
    destruct (get_attributes_fresh _ _ _ Hg) as (Ha & _ & Hd & _).
    cbn [data set_data] in Hd. rewrite Hd in Ha at 1.
    rewrite attributes_of_table_setitem in Ha. auto.
Qed.

Lemma inplace_returns_owned_table_witness :
  mutate example_call custom_stream
  = (cropped_stream, Ok (data cropped_stream))
  /\ exists r0,
       copy example_call custom_stream = (custom_stream, Ok r0)
       /\ data cropped_stream = data cropped_stream
       /\ data cropped_stream
          = setitem "time [s]" (FloatCol (times cropped_stream)) r0
       /\ attributes_of_table r0
          = Some (attributes_of_stream cropped_stream).
Proof.
  assert (H : mutate example_call custom_stream
              = (cropped_stream, Ok (data cropped_stream)))
    by (vm_compute; reflexivity).
  split; [exact H |].
  exact (inplace_returns_owned_table example_call custom_stream cropped_stream
           (data cropped_stream) H).
Defined.

Lemma get_attributes_succeeds (s : NeonStream) (a : attributes) :
  attributes_of_table (data s) = Some a ->
  exists s', _get_attributes s = (s', Ok tt)
             /\ attributes_of_stream s' = a.
Proof.
  intros Ha. rewrite get_attributes_cases. unfold attributes_of_table in Ha.
  destruct (index (data s)) as [| first rest] eqn:Ei; [discriminate |].
  cbv zeta in *. destruct (Qc_eq_bool _ _); [discriminate |].
  injection Ha as <-. eexists. split; [reflexivity |].
  unfold attributes_of_stream, shape0. cbn. rewrite Ei. reflexivity.
Qed.

(** X11. The converse of X10.  When the call with [inplace=False] returns
    a table with a row and a non-zero duration, the in-place call returns,
    leaves the stream with the attributes of that table, and owns the table
    with [time [s]] recomputed. *)
Theorem inplace_succeeds_when_copy_has_span (c : call) (s : NeonStream)
    (r0 : DataFrame) (a : attributes) :
  copy c s = (s, Ok r0) ->
  attributes_of_table r0 = Some a ->
  exists s',
    mutate c s = (s', Ok (data s'))
    /\ data s' = setitem "time [s]" (FloatCol (a_times a)) r0
    /\ attributes_of_stream s' = a.
Proof.
  intros Hc Ha.
  destruct (get_attributes_succeeds (set_data r0 s) a Ha) as (s' & Hg & Hs').
  destruct (get_attributes_fresh _ _ _ Hg) as (_ & _ & Hd & _).
  cbn [data set_data] in Hd.
  assert (Ht : times s' = a_times a) by (rewrite <- Hs'; reflexivity).
  rewrite Ht in Hd.
  exists s'. split; [| split; assumption].
  destruct c as [tmin tmax by_ | new_ts fk ok]; cbn [mutate copy] in *.
  - unfold stream.crop, bind, attr, lift, ret, assign in *.
    destruct (preprocess.crop (data s) tmin tmax by_) as [nd |]; [| discriminate].
    injection Hc as ->. rewrite Hg. reflexivity.
  - unfold stream.interpolate in *. unfold bind at 1 in Hc. unfold bind at 1.
    pose proof (target_timestamps_state new_ts s) as Hst.
    destruct (target_timestamps new_ts s) as [s0 [grid | e]]; cbn in Hst; subst s0;
      [| discriminate].
    unfold bind, attr, lift, ret, assign in *.
    destruct (preprocess.interpolate grid (data s) fk ok) as [nd |];
      [| discriminate].
    injection Hc as ->. rewrite Hg. reflexivity.
Qed.

Lemma inplace_succeeds_when_copy_has_span_witness :
  copy example_call custom_stream = (custom_stream, Ok cropped_copy)
  /\ attributes_of_table cropped_copy
     = Some (attributes_or_default (attributes_of_table cropped_copy))
  /\ exists s',
       mutate example_call custom_stream = (s', Ok (data s'))
       /\ data s'
          = setitem "time [s]"
              (FloatCol (a_times (attributes_or_default
                                    (attributes_of_table cropped_copy))))
              cropped_copy
       /\ attributes_of_stream s'
          = attributes_or_default (attributes_of_table cropped_copy).
Proof.
  assert (H1 : copy example_call custom_stream
               = (custom_stream, Ok cropped_copy))
    by (vm_compute; reflexivity).
  assert (H2 : attributes_of_table cropped_copy
               = Some (attributes_or_default
                         (attributes_of_table cropped_copy)))
    by (vm_compute; reflexivity).
  split; [exact H1 |]. split; [exact H2 |].
  exact (inplace_succeeds_when_copy_has_span example_call custom_stream
           cropped_copy _ H1 H2).
Defined.

(** X12. When the call with [inplace=False] raises, the in-place call
    raises the same exception and assigns nothing: [self.data] is replaced
    only after the new table has been computed. *)
Theorem failed_copy_fails_inplace (c : call) (s : NeonStream) (e : exn) :
  copy c s = (s, Raise e) ->
  mutate c s = (s, Raise e).
Proof.
  intros Hc. destruct c as [tmin tmax by_ | new_ts fk ok]; cbn [mutate copy] in *.
  - unfold stream.crop, bind, attr, lift, ret, assign in *.
    destruct (preprocess.crop (data s) tmin tmax by_) as [nd |]; [discriminate |].
    exact Hc.
  - unfold stream.interpolate in *. unfold bind at 1 in Hc. unfold bind at 1.
    pose proof (target_timestamps_state new_ts s) as Hst.
    destruct (target_timestamps new_ts s) as [s0 [grid | e0]]; cbn in Hst; subst s0;
      [| exact Hc].
    unfold bind, attr, lift, ret, assign in *.
    destruct (preprocess.interpolate grid (data s) fk ok) as [nd |];
      [discriminate | exact Hc].
Qed.

Lemma failed_copy_fails_inplace_witness :
  copy inverted_call custom_stream = (custom_stream, Raise InvalidRange)
  /\ mutate inverted_call custom_stream = (custom_stream, Raise InvalidRange).
Proof.
  assert (H : copy inverted_call custom_stream
              = (custom_stream, Raise InvalidRange))
    by (vm_compute; reflexivity).
  split; [exact H |].
  exact (failed_copy_fails_inplace inverted_call custom_stream InvalidRange H).
Defined.

(** ** Plots of the scene video *)

#[warning="-notation-overridden"]
Import vis_video.

(** X13. [plot_frame] raises IndexError exactly when [index] is negative
    or not below [len(video.ts)], and then before any figure is opened and
    before the video is touched; for an index in range it never raises
    IndexError. *)
Theorem plot_frame_index_check (v : NeonVideo) (index : Z) (ax : option nat)
    (auto_title : bool) (calls : list event) :
  (0 <= index < Z.of_nat (length (video_ts v)) ->
   forall msg, snd (plot_frame v index ax auto_title calls)
               <> Raised (IndexError msg))
  /\ (~ 0 <= index < Z.of_nat (length (video_ts v)) ->
      plot_frame v index ax auto_title calls
      = (calls, Raised (IndexError ("Frame index " ++ str index
                                    ++ " out of range")%string))).
Proof.
  unfold plot_frame. split.
  - intros Hin msg.
    destruct (Z.geb_spec index (Z.of_nat (length (video_ts v)))); [lia |].
    destruct (Z.ltb_spec index 0); [lia |]. cbn [orb].
    unfold bind, figure_of, emit, ret, raise.
    destruct ax; cbn; destruct (frame_at v index); cbn;
      try destruct auto_title; cbn; discriminate.
  - intros Hout.
    destruct (Z.geb_spec index (Z.of_nat (length (video_ts v)))); [reflexivity |].
    destruct (Z.ltb_spec index 0); [reflexivity | lia].
Qed.

Lemma plot_frame_index_check_witness :
  (forall msg, snd (plot_frame example_video 1 None true [])
               <> Raised (IndexError msg))
  /\ plot_frame example_video 3 None true []
     = ([], Raised (IndexError "Frame index 3 out of range")).
Proof.
  split.
  - apply (proj1 (plot_frame_index_check example_video 1 None true [])).
    cbn. lia.
  - apply (proj2 (plot_frame_index_check example_video 3 None true [])).
    cbn. lia.
Defined.

(** X14. [plot_frame] at an index in range.  It opens the figure (new
    axes, or the figure of the axes given), positions the video and reads.
    When the read fails it raises RuntimeError with the figure already
    opened and nothing drawn.  Otherwise it draws the frame with the colour
    channels reversed, sets the title only when [auto_title] holds, numbering
    frames from 1, turns the axis off, and returns the axes it drew on. *)
Theorem plot_frame_outcome (v : NeonVideo) (index : Z) (ax : option nat)
    (auto_title : bool) (calls : list event) :
  0 <= index < Z.of_nat (length (video_ts v)) ->
  let opened := match ax with None => subplots | Some _ => get_figure end in
  match frame_at v index with
  | None =>
      plot_frame v index ax auto_title calls
      = (calls ++ [opened; video_set index; video_read],
         Raised (RuntimeError ("Could not read frame " ++ str index)%string))
  | Some frame =>
      exists title,
        plot_frame v index ax auto_title calls
        = (calls ++ [opened; video_set index; video_read;
                     imshow_frame (cvtColor frame)] ++ title ++ [axis_off],
           Done (match ax with None => created | Some a => given a end))
        /\ title = if auto_title
                   then [set_title (video_file_name v ++ " | Frame "
                                      ++ str (index + 1) ++ "/"
                                      ++ str (video_len v))%string]
                   else []
  end.
Proof.
  intros Hin opened. unfold plot_frame.
  destruct (Z.geb_spec index (Z.of_nat (length (video_ts v)))); [lia |].
  destruct (Z.ltb_spec index 0); [lia |]. cbn [orb].
  unfold bind, figure_of, emit, ret, raise, opened.
  destruct (frame_at v index) as [frame |].
  - eexists. split; [| reflexivity].
    destruct ax, auto_title; cbn; rewrite <- !app_assoc; reflexivity.
  - destruct ax; cbn; rewrite <- !app_assoc; reflexivity.
Qed.

Lemma plot_frame_outcome_witness :
  0 <= 2 < Z.of_nat (length (video_ts example_video))
  /\ plot_frame example_video 2 (Some 0%nat) true []
     = ([get_figure; video_set 2; video_read],
        Raised (RuntimeError "Could not read frame 2")).
Proof.
  assert (H : 0 <= 2 < Z.of_nat (length (video_ts example_video)))
    by (cbn; lia).
  split; [exact H |].
  exact (plot_frame_outcome example_video 2 (Some 0%nat) true [] H).
Defined.

(** X15. [plot_distribution] needs both gaze and fixations whatever the
    sources chosen: when the recording lacks either it raises ValueError
    before any figure is opened, also when the missing one is not used as a
    source. *)
Theorem plot_distribution_needs_both_streams (np_ : numerics)
    (rec : NeonRecording) (hs ss : option source) (step_size : Z)
    (sigma : option float) (wh : option (Z * Z)) (cmap : option string)
    (ax : option nat) (calls : list event) :
  gaze rec = None \/ fixations rec = None ->
  exists msg,
    plot_distribution np_ rec hs ss step_size sigma wh cmap ax calls
    = (calls, Raised (ValueError msg)).
Proof.
  intros H. unfold plot_distribution, bind, ret, raise.
  destruct hs as [h |], ss as [sc |], (video rec) as [v |], wh as [w |],
    (gaze rec) as [g |], (fixations rec) as [f |];
    try (destruct H; discriminate); eexists; reflexivity.
Qed.

Lemma plot_distribution_needs_both_streams_witness :
  (gaze recording_without_fixations = None
   \/ fixations recording_without_fixations = None)
  /\ exists msg,
       plot_distribution blank_numerics recording_without_fixations
         (Some from_gaze) None 10 None None None None []
       = ([], Raised (ValueError msg)).
Proof.
  assert (H : gaze recording_without_fixations = None
              \/ fixations recording_without_fixations = None)
    by (right; reflexivity).
  split; [exact H |].
  exact (plot_distribution_needs_both_streams blank_numerics
           recording_without_fixations (Some from_gaze) None 10 None None None
           None [] H).
Defined.

(** X16. When the recording has a scene video, [plot_distribution]
    ignores the [width_height] argument: the call is the call with the
    video's width and height. *)
Theorem plot_distribution_video_size_wins (np_ : numerics)
    (rec : NeonRecording) (v : NeonVideo) (hs ss : option source)
    (step_size : Z) (sigma : option float) (wh : option (Z * Z))
    (cmap : option string) (ax : option nat) :
  video rec = Some v ->
  plot_distribution np_ rec hs ss step_size sigma wh cmap ax
  = plot_distribution np_ rec hs ss step_size sigma
      (Some (width v, height v)) cmap ax.
Proof.
  intros Hv. unfold plot_distribution. rewrite Hv.
  destruct hs, ss; reflexivity.
Qed.

Lemma plot_distribution_video_size_wins_witness :
  video example_recording = Some example_video
  /\ plot_distribution blank_numerics example_recording (Some from_gaze)
       (Some from_fixations) 10 None (Some (1, 1)) None None
     = plot_distribution blank_numerics example_recording (Some from_gaze)
         (Some from_fixations) 10 None
         (Some (width example_video, height example_video)) None None.
Proof.
  assert (H : video example_recording = Some example_video) by reflexivity.
  split; [exact H |].
  exact (plot_distribution_video_size_wins blank_numerics example_recording
           example_video (Some from_gaze) (Some from_fixations) 10 None
           (Some (1, 1)) None None H).
Defined.

(** X17. [plot_distribution] with [step_size = 0] and otherwise valid
    arguments raises ZeroDivisionError at the first bin edge computation,
    after the figure has been opened and before anything is drawn. *)
Theorem plot_distribution_zero_step (np_ : numerics) (rec : NeonRecording)
    (g : stream.NeonStream) (f : NeonEV) (hs ss : option source)
    (sigma : option float) (wh : option (Z * Z)) (cmap : option string)
    (ax : option nat) (calls : list event) :
  gaze rec = Some g -> fixations rec = Some f ->
  hs <> None \/ ss <> None ->
  video rec <> None \/ wh <> None ->
  plot_distribution np_ rec hs ss 0 sigma wh cmap ax calls
  = (calls ++ [match ax with None => subplots | Some _ => get_figure end],
     Raised ZeroDivisionError).
Proof.
  intros Hg Hf Hsrc Hsize. unfold plot_distribution. rewrite Hg, Hf.
  unfold bind, ret, raise, figure_of, emit, lift, edges. cbn [Z.eqb].
  destruct hs as [h |], ss as [sc |]; try (destruct Hsrc; congruence);
    destruct (video rec) as [v |], wh as [w |];
    try (destruct Hsize; congruence); destruct ax; reflexivity.
Qed.

Lemma plot_distribution_zero_step_witness :
  gaze example_recording
  = Some (object_of (init NeonGaze scene_gaze_table))
  /\ fixations example_recording = Some (mkNeonEV fixation_table)
  /\ (Some from_gaze <> None \/ @None source <> None)
  /\ (video example_recording <> None \/ @None (Z * Z) <> None)
  /\ plot_distribution blank_numerics example_recording (Some from_gaze) None
       0 None None None None []
     = ([] ++ [subplots], Raised ZeroDivisionError).
Proof.
  assert (H1 : gaze example_recording
               = Some (object_of (init NeonGaze scene_gaze_table)))
    by reflexivity.
  assert (H2 : fixations example_recording = Some (mkNeonEV fixation_table))
    by reflexivity.
  assert (H3 : Some from_gaze <> None \/ @None source <> None)
    by (left; discriminate).
  assert (H4 : video example_recording <> None \/ @None (Z * Z) <> None)
    by (left; discriminate).
  split; [exact H1 |]. split; [exact H2 |]. split; [exact H3 |].
  split; [exact H4 |].
  exact (plot_distribution_zero_step blank_numerics example_recording _ _
           (Some from_gaze) None None None None None [] H1 H2 H3 H4).
Defined.

Lemma Z2f_pos z : 0 < z -> (0 < Z2f z)%Qc.
Proof.
  intros H. to_Q. change 0%Q with (inject_Z 0). rewrite <- Zlt_Qlt. exact H.
Qed.

(** X18. The bin edges of [plot_distribution] along an axis of [size]
    pixels, for [0 < step_size <= size]: there are [size // step_size] bins
    of equal width [size / (size // step_size)] from 0 to [size]; the width
    is at least [step_size] and equals it exactly when [step_size] divides
    [size]. *)
Theorem edges_spacing (size step_size : Z) :
  0 < step_size <= size ->
  let bins := size / step_size in
  let w := (Z2f size / Z2f bins)%Qc in
  edges size step_size
  = Done (map (fun i => (Z2f (Z.of_nat i) * w)%Qc) (seq 0 (S (Z.to_nat bins))))
  /\ (Z2f (Z.of_nat (Z.to_nat bins)) * w = Z2f size)%Qc
  /\ (Z2f step_size <= w)%Qc
  /\ (w = Z2f step_size <-> size mod step_size = 0).
Proof.
  intros [Hs Hle] bins w.
  assert (Hb : 1 <= bins) by (apply Z.div_le_lower_bound; lia).
  assert (Hbz : Z2f bins <> 0%Qc) by (apply Z2f_nonzero; lia).
  pose proof (Z.div_mod size step_size ltac:(lia)) as Hdm. fold bins in Hdm.
  pose proof (Z.mod_pos_bound size step_size Hs) as Hr.
  split; [| split; [| split]].
  - unfold edges, linspace.
    destruct (Z.eqb_spec step_size 0); [lia |]. fold bins.
    destruct (Z.ltb_spec (bins + 1) 0); [lia |].
    destruct (Z.eqb_spec (bins + 1) 1); [lia |].
    replace (bins + 1 - 1) with bins by lia.
    replace (Z.to_nat (bins + 1)) with (S (Z.to_nat bins)) by lia.
    f_equal. apply map_ext. intros i. unfold w, Qcdiv. ring.
  - rewrite Z2Nat.id by lia. unfold w. field. exact Hbz.
  - unfold w. pose proof (Z2f_pos bins ltac:(lia)) as Hp.
    to_Q.
    assert (Hi : (0 < / inject_Z bins)%Q) by (apply Qinv_lt_0_compat; exact Hp).
    assert (E : (inject_Z bins * / inject_Z bins == 1)%Q)
      by (apply Qmult_inv_r; lra).
    assert (Hm : (inject_Z step_size * inject_Z bins <= inject_Z size)%Q).
    { rewrite <- inject_Z_mult, <- Zle_Qle. nia. }
    assert (H1 : (inject_Z step_size * inject_Z bins * / inject_Z bins
                  <= inject_Z size * / inject_Z bins)%Q)
      by (apply Qmult_le_compat_r; [exact Hm | lra]).
    assert (E2 : (inject_Z step_size * inject_Z bins * / inject_Z bins
                  == inject_Z step_size)%Q)
      by (rewrite <- Qmult_assoc, E; ring).
    rewrite E2 in H1. exact H1.
  - split.
    + intros Hw.
      assert (E : (Z2f step_size * Z2f bins)%Qc = Z2f size).
      { rewrite <- Hw. unfold w. field. exact Hbz. }
      assert (E' : Z2f (step_size * bins) = Z2f size).
      { rewrite <- E. apply Qc_is_canon. to_Q. rewrite inject_Z_mult. reflexivity. }
      apply Z2f_inj in E'. lia.
    + intros Hm. unfold w.
      assert (E : size = step_size * bins) by lia.
      rewrite E at 1.
      assert (E' : Z2f (step_size * bins) = (Z2f step_size * Z2f bins)%Qc).
      { apply Qc_is_canon. to_Q. rewrite inject_Z_mult. reflexivity. }
      rewrite E'. field. exact Hbz.
Qed.

Lemma edges_spacing_witness :
  0 < 10 <= 45
  /\ edges 45 10
     = Done (map (fun i => (Z2f (Z.of_nat i) * (Z2f 45 / Z2f (45 / 10)))%Qc)
                 (seq 0 (S (Z.to_nat (45 / 10)))))
  /\ (Z2f 10 <= Z2f 45 / Z2f (45 / 10))%Qc.
Proof.
  assert (H : 0 < 10 <= 45) by lia.
  split; [exact H |].
  pose proof (edges_spacing 45 10 H) as (H1 & _ & H2 & _).
  split; [exact H1 | exact H2].
Defined.

(** X19. A [plot_distribution] that returns.  The recording has gaze and
    fixations; the calls made are, in order: the figure opened, the heatmap
    image with its colour bar when [heatmap_source] is given, the scatter
    when [scatter_source] is given, then the two limits from 0 to the width
    and height, the aspect and the two labels.  The scatter shows the gaze
    columns when [scatter_source] is ["gaze"] and the fixation columns
    otherwise. *)
Theorem plot_distribution_draws (np_ : numerics) (rec : NeonRecording)
    (hs ss : option source) (step_size : Z) (sigma : option float)
    (wh : option (Z * Z)) (cmap : option string) (ax : option nat)
    (calls calls' : list event) :
  plot_distribution np_ rec hs ss step_size sigma wh cmap ax calls
  = (calls', Done tt) ->
  exists g f W H h x y,
    gaze rec = Some g /\ fixations rec = Some f
    /\ (W, H) = match video rec with
                | Some v => (width v, height v)
                | None => match wh with Some p => p | None => (0, 0) end
                end
    /\ column_of (if is_gaze ss then stream.data g else events_data f)
         (if is_gaze ss then "gaze x [px]" else "fixation x [px]")%string
       = Done x
    /\ column_of (if is_gaze ss then stream.data g else events_data f)
         (if is_gaze ss then "gaze y [px]" else "fixation y [px]")%string
       = Done y
    /\ calls'
       = calls
         ++ [match ax with None => subplots | Some _ => get_figure end]
         ++ match hs with
            | Some _ => [imshow_transposed h cmap (0, W, 0, H); colorbar]
            | None => []
            end
         ++ match ss with
            | Some _ => [scatter x y]
            | None => []
            end
         ++ [set_xlim 0 W; set_ylim 0 H; set_aspect;
             set_xlabel "Scene camera x [px]";
             set_ylabel "Scene camera y [px]"].
Proof.
  unfold plot_distribution. intros Hrun.
  assert (Hsrc : hs <> None \/ ss <> None).
  { destruct hs, ss; [left | left | right |]; discriminate. }
  assert (Hbody :
    (width_height <-
       match video rec with
       | None =>
           match wh with
           | None =>
               raise (ValueError
                 "No video data available and no width_height provided.")
           | Some p => ret p
           end
       | Some v => ret (width v, height v)
       end ;;
     match gaze rec with
     | None => raise (ValueError "No gaze data available.")
     | Some gaze_ =>
         match fixations rec with
         | None => raise (ValueError "No fixation data available.")
         | Some fixations_ =>
             figure_of ax ;;
             x_edges <- lift (edges (fst width_height) step_size) ;;
             y_edges <- lift (edges (snd width_height) step_size) ;;
             gaze_x <- lift (column_of (stream.data gaze_) "gaze x [px]") ;;
             gaze_y <- lift (column_of (stream.data gaze_) "gaze y [px]") ;;
             fix_x <- lift (column_of (events_data fixations_)
                              "fixation x [px]") ;;
             fix_y <- lift (column_of (events_data fixations_)
                              "fixation y [px]") ;;
             let heatmap_x := if is_gaze hs then gaze_x else fix_x in
             let heatmap_y := if is_gaze hs then gaze_y else fix_y in
             let scatter_x := if is_gaze ss then gaze_x else fix_x in
             let scatter_y := if is_gaze ss then gaze_y else fix_y in
             h <- lift (histogram2d np_ heatmap_x heatmap_y x_edges y_edges) ;;
             h <- lift (gaussian_filter np_ h sigma) ;;
             (match hs with
              | Some _ =>
                  emit (imshow_transposed h cmap
                          (0, fst width_height, 0, snd width_height)) ;;
                  emit colorbar
              | None => ret tt
              end) ;;
             (match ss with
              | Some _ => emit (scatter scatter_x scatter_y)
              | None => ret tt
              end) ;;
             emit (set_xlim 0 (fst width_height)) ;;
             emit (set_ylim 0 (snd width_height)) ;;
             emit set_aspect ;;
             emit (set_xlabel "Scene camera x [px]") ;;
             emit (set_ylabel "Scene camera y [px]")
         end
     end) calls = (calls', Done tt)).
  { destruct hs, ss; try exact Hrun. destruct Hsrc; congruence. }
  clear Hrun Hsrc. unfold bind at 1 in Hbody.
  remember (match video rec with
            | Some v => (width v, height v)
            | None => match wh with Some p => p | None => (0, 0) end
            end) as size eqn:Hsz.
  assert (Hsize : match video rec with
                  | None => match wh with
                            | None => raise (ValueError
                                "No video data available and no width_height provided.")
                            | Some p => ret p
                            end
                  | Some v => ret (width v, height v)
                  end calls = (calls, Done size)
                  \/ video rec = None /\ wh = None).
  { rewrite Hsz. unfold ret. destruct (video rec); [left; reflexivity |].
    destruct wh; [left; reflexivity | right; split; reflexivity]. }
  destruct Hsize as [Hsize | [Hv Hw]].
  2: { rewrite Hv, Hw in Hbody. cbn in Hbody. discriminate. }
  rewrite Hsize in Hbody. clear Hsize.
  destruct (gaze rec) as [g |]; [| discriminate].
  destruct (fixations rec) as [f |]; [| discriminate].
  unfold bind, figure_of, emit, ret, raise, lift in Hbody.
  destruct size as [W H]. cbn [fst snd] in Hbody.
  exists g, f, W, H.
  destruct (edges W step_size) as [xe |]; [| destruct ax; discriminate].
  destruct (edges H step_size) as [ye |]; [| destruct ax; discriminate].
  destruct (column_of (stream.data g) "gaze x [px]") as [gx |] eqn:Hgx;
    [| destruct ax; discriminate].
  destruct (column_of (stream.data g) "gaze y [px]") as [gy |] eqn:Hgy;
    [| destruct ax; discriminate].
  destruct (column_of (events_data f) "fixation x [px]") as [fx |] eqn:Hfx;
    [| destruct ax; discriminate].
  destruct (column_of (events_data f) "fixation y [px]") as [fy |] eqn:Hfy;
    [| destruct ax; discriminate].
  destruct (histogram2d np_ _ _ xe ye) as [h0 |]; [| destruct ax; discriminate].
  destruct (gaussian_filter np_ h0 sigma) as [h |]; [| destruct ax; discriminate].
  exists h, (if is_gaze ss then gx else fx), (if is_gaze ss then gy else fy).
  split; [reflexivity |]. split; [reflexivity |]. split; [reflexivity |].
  split; [destruct (is_gaze ss); assumption |].
  split; [destruct (is_gaze ss); assumption |].
  destruct ax, hs, ss; cbn in Hbody; injection Hbody as <-;
    cbn; rewrite <- ?app_assoc; reflexivity.
Qed.

Lemma plot_distribution_draws_witness :
  plot_distribution blank_numerics example_recording (Some from_gaze)
    (Some from_fixations) 10 None None None None []
  = (example_drawing, Done tt)
  /\ exists g f W H h x y,
       gaze example_recording = Some g /\ fixations example_recording = Some f
       /\ (W, H) = (width example_video, height example_video)
       /\ column_of (events_data f) "fixation x [px]" = Done x
       /\ column_of (events_data f) "fixation y [px]" = Done y
       /\ example_drawing
          = [subplots; imshow_transposed h None (0, W, 0, H); colorbar;
             scatter x y; set_xlim 0 W; set_ylim 0 H; set_aspect;
             set_xlabel "Scene camera x [px]";
             set_ylabel "Scene camera y [px]"].
Proof.
  assert (H : plot_distribution blank_numerics example_recording
                (Some from_gaze) (Some from_fixations) 10 None None None None
                []
              = (example_drawing, Done tt)) by (vm_compute; reflexivity).
  split; [exact H |].
  exact (plot_distribution_draws blank_numerics example_recording
           (Some from_gaze) (Some from_fixations) 10 None None None None []
           example_drawing H).
Defined.
